(** * Website suggestion assistant: category detection, reasons, deep links

    A shallow embedding of the two Streamlit applications of the repository,
    [src/app.py] (module [App]) and [src/streamlit-app/app.py] (module
    [StreamlitApp]), followed by the properties their specification states.

    Python [str] values are sequences of Unicode code points, so a string is
    a [list N].  Dictionaries whose iteration order is observable (the
    category table) are lists of items in insertion order; the reason map,
    which is only ever looked up by key, is a [gmap]. *)

From Stdlib Require Import NArith List Bool Lia Ascii.
From stdpp Require Import base option list strings gmap.

Local Open Scope N_scope.
Local Set Warnings "-register-all".

(** ** Python strings and the library functions the applications call *)

Module Py.

(** A string literal of the source, as code points (ASCII literals only). *)
Definition lit (s : string) : list N :=
  N_of_ascii <$> String.list_ascii_of_string s.

(** The value [json.loads] builds.  A number keeps its lexeme: how Python
    prints it is left to [json_repr].  An object is the sequence of its
    items, in document order. *)
Inductive json : Type :=
  | JNull
  | JBool (b : bool)
  | JNum (lexeme : list N)
  | JStr (s : list N)
  | JArr (items : list json)
  | JObj (members : list (list N * json)).

(** What a call into a model client yields: it raises, or it returns. *)
Inductive outcome (A : Type) : Type :=
  | Raised
  | Returned (a : A).
Arguments Raised {A}.
Arguments Returned {A} a.

(** The parts of the Python runtime and of its libraries that are not code
    of this repository: the Unicode character database outside ASCII
    ([str.lower] is not a character-wise map there, because of the final
    sigma rule, so it is taken on whole strings), the JSON decoder
    ([None] stands for [JSONDecodeError]), [str()] of a decoded value that
    is not a string, [urllib.parse.urlparse(...).netloc] ([None] stands for
    the [ValueError] it raises on a malformed authority) and
    [urllib.parse.quote] ([None] stands for the [UnicodeEncodeError] it
    raises on a text that UTF-8 cannot encode, one with a lone surrogate). *)
Class Runtime : Type := {
  u_lower : list N -> list N;
  u_isspace : N -> bool;
  u_isdecimal : N -> bool;
  u_isword : N -> bool;
  json_decode : list N -> option json;
  json_repr : json -> list N;
  urlparse_netloc : list N -> option (list N);
  quote : list N -> option (list N)
}.

Definition between (lo hi c : N) : bool := (lo <=? c) && (c <=? hi).

Definition is_ascii (c : N) : bool := c <? 128.
Definition is_upper_az (c : N) : bool := between 65 90 c.
Definition is_lower_az (c : N) : bool := between 97 122 c.
Definition is_digit_09 (c : N) : bool := between 48 57 c.

Definition ascii_lower (c : N) : N := if is_upper_az c then c + 32 else c.

Section Strings.
Context {rt : Runtime}.

(** [s.lower()] *)
Definition lower (s : list N) : list N :=
  if forallb is_ascii s then ascii_lower <$> s else u_lower s.

(** [str.isspace] on one character, which is also the class [\s]. *)
Definition isspace (c : N) : bool :=
  if is_ascii c then between 9 13 c || between 28 32 c else u_isspace c.

(** The class [\d]. *)
Definition isdigit (c : N) : bool :=
  if is_ascii c then is_digit_09 c else u_isdecimal c.

(** The class [\w]. *)
Definition isword (c : N) : bool :=
  if is_ascii c
  then is_upper_az c || is_lower_az c || is_digit_09 c || (c =? 95)
  else u_isword c.

(** [s.startswith(p)] *)
Fixpoint startswith (p s : list N) : bool :=
  match p, s with
  | [], _ => true
  | _ :: _, [] => false
  | a :: p', b :: s' => (a =? b) && startswith p' s'
  end.

(** [sub in s] *)
Fixpoint contains (sub s : list N) : bool :=
  startswith sub s ||
  match s with
  | [] => false
  | _ :: s' => contains sub s'
  end.

(** What is left of [s] after the literal [p], when [s] starts with it. *)
Fixpoint after_prefix (p s : list N) : option (list N) :=
  match p, s with
  | [], _ => Some s
  | _ :: _, [] => None
  | a :: p', b :: s' => if a =? b then after_prefix p' s' else None
  end.

Fixpoint lstrip (p : N -> bool) (s : list N) : list N :=
  match s with
  | [] => []
  | c :: s' => if p c then lstrip p s' else s
  end.

Definition rstrip (p : N -> bool) (s : list N) : list N :=
  reverse (lstrip p (reverse s)).

(** [s.strip()] with [p := isspace], [s.strip(chars)] with [p] the
    membership in [chars]. *)
Definition strip (p : N -> bool) (s : list N) : list N :=
  rstrip p (lstrip p s).

(** [re.sub(r"[class]+", rep, s)]: every maximal run of characters of the
    class is replaced by [rep]; [in_run] tells that the run the scan is in
    has been replaced already. *)
Fixpoint sub_runs (p : N -> bool) (rep : list N) (in_run : bool) (s : list N)
  : list N :=
  match s with
  | [] => []
  | c :: s' =>
      if p c
      then (if in_run then [] else rep) ++ sub_runs p rep true s'
      else c :: sub_runs p rep false s'
  end.

(** [re.sub(r"c{2,}", rep, s)]: every maximal run of two or more [c] is
    replaced by [rep]; a single [c] stays. *)
Fixpoint sub_repeats (c : N) (rep : list N) (in_run : bool) (s : list N)
  : list N :=
  match s with
  | [] => []
  | x :: s' =>
      if x =? c
      then if in_run then sub_repeats c rep true s'
           else match s' with
                | y :: _ =>
                    if y =? c then rep ++ sub_repeats c rep true s'
                    else x :: sub_repeats c rep false s'
                | [] => [x]
                end
      else x :: sub_repeats c rep false s'
  end.

(** [sep.join(parts)] *)
Fixpoint join (sep : list N) (parts : list (list N)) : list N :=
  match parts with
  | [] => []
  | [x] => x
  | x :: rest => x ++ sep ++ join sep rest
  end.

(** [sum(1 for x in xs if f x)] *)
Definition count_if {A : Type} (f : A -> bool) (xs : list A) : nat :=
  length (List.filter f xs).

End Strings.

(** The loop both applications use to pick a category: scan the items of
    the table in order, keep the best category and its score, replace them
    only on a strictly higher score, and answer [None] when the best score
    is still zero. *)
Definition pick {V : Type} (score : V -> nat)
    (st : option (list N) * nat) (item : list N * V) : option (list N) * nat :=
  let s := score item.2 in
  if (st.2 <? s)%nat then (Some item.1, s) else st.

Definition best_category {V : Type} (score : V -> nat)
    (table : list (list N * V)) : option (list N) :=
  let st := foldl (pick score) (None, 0%nat) table in
  if (0 <? st.2)%nat then st.1 else None.

End Py.

(** ** [src/app.py]: substring detection and the batch reason generator *)

Module App.
Import Py.

(** A site record of [websites.json]: [name] is read with [w["name"]],
    [url] and [strengths] with [w.get]. *)
Record site : Type := {
  name : list N;
  url : option (list N);
  strengths : option (list (list N))
}.

(** The variables the prompt template is filled with by [chain.invoke]. *)
Record prompt_inputs : Type := {
  in_user_query : list N;
  in_category : list N;
  in_website_list : list N
}.

Section Reasons.
Context {rt : Runtime}.

(** The score of one category: [sum(1 for kw in keywords if kw.lower() in text)]. *)
Definition keyword_hits (text : list N) (keywords : list (list N)) : nat :=
  count_if (fun kw => contains (lower kw) text) keywords.

(** [detect_category(query, categories_map)] *)
Definition detect_category (query : list N)
    (categories_map : list (list N * list (list N))) : option (list N) :=
  let text := lower query in
  best_category (keyword_hits text) categories_map.

(** One line of the site description the prompt carries. *)
Definition website_line (w : site) : list N :=
  let strengths := default [] (strengths w) in
  let strengths_txt :=
    match strengths with
    | [] => lit "general strengths"
    | _ => join (lit ", ") strengths
    end in
  lit "- " ++ name w ++ lit ": " ++ strengths_txt.

(** The sentence [build_fallback_reasons] stores for one site. *)
Definition fallback_sentence (category : list N) (w : site) : list N :=
  let strengths := default [] (strengths w) in
  let strength_tip :=
    match strengths with
    | [] => lit "good selection and reliability"
    | _ => join (lit ", ") (take 2 strengths)
    end in
  lit "Great for " ++ category ++ lit "; known for " ++ strength_tip ++ lit ".".

(** [build_fallback_reasons(websites, category, user_query)] *)
Definition build_fallback_reasons (websites : list site)
    (category user_query : list N) : gmap (list N) (list N) :=
  foldl (fun reasons w => <[name w := fallback_sentence category w]> reasons)
        ∅ websites.

(** The white space of JSON. *)
Definition json_ws (c : N) : bool :=
  (c =? 32) || (c =? 9) || (c =? 10) || (c =? 13).

(** [json.loads(raw)]: a document without a value (empty, or JSON
    white space only) is rejected; the rest is the decoder's. *)
Definition json_loads (raw : list N) : option json :=
  if forallb json_ws raw then None else json_decode raw.

(** [str(v)] of a decoded value. *)
Definition py_str (v : json) : list N :=
  match v with
  | JStr s => s
  | _ => json_repr v
  end.

(** [{k: str(v) for k, v in reasons.items() if k in allowed}] *)
Definition keep_allowed (allowed : gset (list N))
    (members : list (list N * json)) : gmap (list N) (list N) :=
  foldl (fun filtered kv =>
           if bool_decide (kv.1 ∈ allowed)
           then <[kv.1 := py_str kv.2]> filtered
           else filtered)
        ∅ members.

(** The argument of [chain.invoke]. *)
Definition prompt_of (user_query category : list N) (websites : list site)
  : prompt_inputs :=
  let website_lines := website_line <$> websites in
  {| in_user_query := user_query;
     in_category := category;
     in_website_list := join [10] website_lines |}.

(** The double quote and the line feed, which a literal cannot hold. *)
Definition dq : list N := [34].
Definition nl : list N := [10].

(** The template handed to [ChatPromptTemplate.from_template], as the
    source spells it, with the single braces of its JSON example. *)
Definition prompt_template : list N :=
  lit "You are a helpful shopping assistant." ++
  nl ++
  lit "User's query: " ++
  dq ++
  lit "{user_query}" ++
  dq ++
  nl ++
  lit "Detected category: " ++
  dq ++
  lit "{category}" ++
  dq ++
  nl ++
  nl ++
  lit "Below is a list of websites and their typical strengths." ++
  lit " For EACH website, write ONE short sentence (<=22 words)" ++
  lit " explaining WHY it's a good choice specifically for this" ++
  lit " user's query and context (consider Indian market and" ++
  lit " budget hints if present)." ++
  nl ++
  nl ++
  lit "Websites:" ++
  nl ++
  lit "{website_list}" ++
  nl ++
  nl ++
  lit "Output rules:" ++
  nl ++
  lit "- Return a VALID JSON object only, no markdown or extra" ++
  lit " text." ++
  nl ++
  lit "- Keys MUST be exactly the website names from the list" ++
  lit " above." ++
  nl ++
  lit "- Values are the one-sentence reasons." ++
  nl ++
  nl ++
  lit "Example format:" ++
  nl ++
  lit "{" ++
  nl ++
  lit "  " ++
  dq ++
  lit "Amazon India" ++
  dq ++
  lit ": " ++
  dq ++
  lit "Reason here." ++
  dq ++
  lit "," ++
  nl ++
  lit "  " ++
  dq ++
  lit "Flipkart" ++
  dq ++
  lit ": " ++
  dq ++
  lit "Reason here." ++
  dq ++
  nl ++
  lit "}".

(** The states of the scan [string.Formatter().parse] makes of a format
    string: in literal text, after a brace whose twin would make it a
    literal, in a field name (read so far, in reverse, and whether inside
    square brackets), after the [!] of a conversion, after the conversion
    character, and in a format specification at some depth of nested
    braces. *)
Inductive format_state : Type :=
  | InText
  | AfterOpen
  | AfterClose
  | InName (seen : list N) (in_brackets : bool)
  | AfterBang (name : list N)
  | AfterConversion (name : list N)
  | InSpec (name : list N) (depth : nat).

(** The field names of a format string in order, or [None] where the
    parser raises [ValueError]. *)
Fixpoint format_fields_from (st : format_state) (s : list N)
  : option (list (list N)) :=
  match s with
  | [] =>
      match st with
      | InText => Some []
      | _ => None
      end
  | c :: s' =>
      let in_name (seen : list N) (in_brackets : bool)
        : option (list (list N)) :=
        if in_brackets
        then format_fields_from (InName (c :: seen) (negb (c =? 93))) s'
        else if c =? 123 then None
        else if c =? 91 then format_fields_from (InName (c :: seen) true) s'
        else if c =? 125
             then cons (reverse seen) <$> format_fields_from InText s'
        else if c =? 58 then format_fields_from (InSpec (reverse seen) 0) s'
        else if c =? 33 then format_fields_from (AfterBang (reverse seen)) s'
        else format_fields_from (InName (c :: seen) false) s' in
      match st with
      | InText =>
          if c =? 123 then format_fields_from AfterOpen s'
          else if c =? 125 then format_fields_from AfterClose s'
          else format_fields_from InText s'
      | AfterOpen =>
          if c =? 123 then format_fields_from InText s' else in_name [] false
      | AfterClose =>
          if c =? 125 then format_fields_from InText s' else None
      | InName seen in_brackets => in_name seen in_brackets
      | AfterBang name => format_fields_from (AfterConversion name) s'
      | AfterConversion name =>
          if c =? 125 then cons name <$> format_fields_from InText s'
          else if c =? 58 then format_fields_from (InSpec name 0) s'
          else None
      | InSpec name depth =>
          if c =? 123 then format_fields_from (InSpec name (S depth)) s'
          else if c =? 125
               then match depth with
                    | O => cons name <$> format_fields_from InText s'
                    | S depth' => format_fields_from (InSpec name depth') s'
                    end
          else format_fields_from (InSpec name depth) s'
      end
  end.

Definition format_fields (s : list N) : option (list (list N)) :=
  format_fields_from InText s.

(** The keys of the dictionary [chain.invoke] is given. *)
Definition supplied_variables : list (list N) :=
  [lit "user_query"; lit "category"; lit "website_list"].

(** [prompt | llm | StrOutputParser()] as the source builds it: the
    variables of the prompt are the fields of the template, and invoking
    the prompt raises [KeyError] when the input lacks one of them; only
    then is the model asked.  [llm] stands for the model and the parser
    behind the filled-in prompt.  The template of the source parses
    (lemma [prompt_template_fields]), so the last case does not arise. *)
Definition chain_of (llm : prompt_inputs -> outcome (list N))
    (inputs : prompt_inputs) : outcome (list N) :=
  match format_fields prompt_template with
  | Some variables =>
      if forallb (fun v => bool_decide (v ∈ supplied_variables)) variables
      then llm inputs
      else Raised
  | None => Raised
  end.

(** [generate_reasons_for_websites(llm, user_query, category, websites)]
    from its [try] on, for any chain; the chain of the source is
    [chain_of llm]. *)
Definition generate_reasons_for_websites
    (chain : prompt_inputs -> outcome (list N))
    (user_query category : list N) (websites : list site)
  : gmap (list N) (list N) :=
  match chain (prompt_of user_query category websites) with
  | Raised => build_fallback_reasons websites category user_query
  | Returned raw =>
      match json_loads raw with
      | Some (JObj reasons) =>
          let allowed : gset (list N) := list_to_set (name <$> websites) in
          keep_allowed allowed reasons
      | _ => build_fallback_reasons websites category user_query
      end
  end.

End Reasons.
End App.

(** ** [src/streamlit-app/app.py]: word detection, per-site reasons, links *)

Module StreamlitApp.
Import Py.

(** A value of [categories.json] in this application: an object read with
    [cfg.get("keywords", [])]. *)
Record category_cfg : Type := {
  keywords : option (list (list N))
}.

(** [result.content] of the message a chat model returns. *)
Inductive content : Type :=
  | ContentNone
  | ContentStr (s : list N)
  | ContentBlocks.

Section Suggestions.
Context {rt : Runtime}.

(** [normalize_text(s)] *)
Definition normalize_text (s : list N) : list N :=
  strip isspace (sub_runs isspace (lit " ") false (lower s)).

(** The assertion [\b] between the characters [prev] and [next], either of
    which is missing at an end of the text. *)
Definition boundary (prev next : option N) : bool :=
  xorb (from_option isword false prev) (from_option isword false next).

(** Does [\b kw \b] match at the position where [s] starts, [prev] being
    the character before it? *)
Definition word_here (kw : list N) (prev : option N) (s : list N) : bool :=
  boundary prev (head s) &&
  match after_prefix kw s with
  | Some rest => boundary (from_option Some prev (last kw)) (head rest)
  | None => false
  end.

(** [re.search(rf"\b{re.escape(kw)}\b", s)], scanning from the left. *)
Fixpoint search_word (kw : list N) (prev : option N) (s : list N) : bool :=
  word_here kw prev s ||
  match s with
  | [] => false
  | c :: s' => search_word kw (Some c) s'
  end.

(** The score of one category:
    [sum(1 for kw in kws if re.search(rf"\b{re.escape(kw.lower())}\b", q))]. *)
Definition keyword_hits (q : list N) (cfg : category_cfg) : nat :=
  let kws := default [] (keywords cfg) in
  count_if (fun kw => search_word (lower kw) None q) kws.

(** [extract_category(query, categories)] *)
Definition extract_category (query : list N)
    (categories : list (list N * category_cfg)) : option (list N) :=
  let q := normalize_text query in
  best_category (keyword_hits q) categories.

(** The literal alternatives of the pattern of [budget_present],
    [(M|rs\.?|rupees?)] and [under], where [M] is the three characters
    U+00E2 U+201A U+00B9 the source file holds for the currency sign. *)
Definition currency_sign : list N := [226; 8218; 185].

Definition budget_markers : list (list N) :=
  [currency_sign; lit "rs"; lit "rs."; lit "rupee"; lit "rupees"; lit "under"].

(** [\s*\d] at the start of [s]; the [[\d,]*] that follows matches the
    empty string, so it never decides. *)
Fixpoint spaces_then_digit (s : list N) : bool :=
  match s with
  | [] => false
  | c :: s' => isdigit c || (isspace c && spaces_then_digit s')
  end.

Definition budget_here (s : list N) : bool :=
  existsb (fun m => from_option spaces_then_digit false (after_prefix m s))
          budget_markers.

Fixpoint budget_search (s : list N) : bool :=
  budget_here s ||
  match s with
  | [] => false
  | _ :: s' => budget_search s'
  end.

(** [budget_present(query)] *)
Definition budget_present (query : list N) : bool :=
  budget_search (normalize_text query).

Definition budget_hint : list N :=
  lit " Use price filters and deals to stay within your budget.".

(** The sentence of [deterministic_reason] before the budget hint. *)
Definition base_sentence (site_name category : list N) : list N :=
  if bool_decide (category = lit "electronics") then
    site_name ++ lit " offers a strong range of electronics with specs filters, trusted warranties, and quick delivery options."
  else if bool_decide (category = lit "fashion") then
    site_name ++ lit " features extensive fashion catalogs, frequent discounts, and easy returns for size or style."
  else if bool_decide (category = lit "furniture") then
    site_name ++ lit " lists sturdy furniture with style/size filters, clear specs, and delivery/assembly support."
  else
    site_name ++ lit " is a reliable place to browse " ++ category ++
    lit " with broad selection, trusted sellers, and convenient delivery.".

(** [deterministic_reason(site_name, category, query)] *)
Definition deterministic_reason (site_name category query : list N) : list N :=
  let has_budget := budget_present query in
  let base := base_sentence site_name category in
  if has_budget then base ++ budget_hint else base.

(** The prompt of [reason_with_llm]. *)
Definition reason_prompt (query category site_name site_url : list N) : list N :=
  lit "You are a helpful shopping assistant for India. " ++
  lit "Given a user shopping query, a product category, and a website, write ONE short, specific sentence " ++
  lit "(max 25 words) explaining why the site is a good place to buy. " ++
  lit "Be factual. Don't invent prices or stock. If budget is mentioned, suggest using filters/deals." ++
  [10; 10] ++
  lit "User query: " ++ query ++ [10] ++
  lit "Category: " ++ category ++ [10] ++
  lit "Website: " ++ site_name ++ lit " (" ++ site_url ++ lit ")" ++ [10] ++
  lit "Answer:".

(** [re.split(r"[\.!?]", text)[0]] *)
Fixpoint first_piece (text : list N) : list N :=
  match text with
  | [] => []
  | c :: text' =>
      if (c =? 46) || (c =? 33) || (c =? 63) then [] else c :: first_piece text'
  end.

(** [reason_with_llm(llm, query, category, site_name, site_url)]: every
    exception of the body is caught, among them the [ValueError] raised on
    an empty text and the [AttributeError] of [.strip()] on a content that
    is not a string. *)
Definition reason_with_llm (llm : list N -> outcome content)
    (query category site_name site_url : list N) : list N :=
  match llm (reason_prompt query category site_name site_url) with
  | Raised => deterministic_reason site_name category query
  | Returned ContentBlocks => deterministic_reason site_name category query
  | Returned c =>
      let text :=
        strip isspace (match c with ContentStr s => s | _ => [] end) in
      match text with
      | [] => deterministic_reason site_name category query
      | _ => strip isspace (first_piece text) ++ lit "."
      end
  end.

Definition is_slug_alnum (c : N) : bool := is_lower_az c || is_digit_09 c.
Definition is_hyphen (c : N) : bool := c =? 45.

(** [to_slug(s)] *)
Definition to_slug (s : list N) : list N :=
  let s1 := normalize_text s in
  let s2 := sub_runs (fun c => negb (is_slug_alnum c)) (lit "-") false s1 in
  let s3 := strip is_hyphen (sub_repeats 45 (lit "-") false s2) in
  match s3 with
  | [] => lit "search"
  | _ => s3
  end.

(** The hosts [build_deep_link] recognises, in the order it tests them. *)
Definition known_hosts : list (list N) :=
  [lit "amazon.in"; lit "flipkart.com"; lit "croma.com";
   lit "reliancedigital.in"; lit "myntra.com"; lit "ajio.com";
   lit "pepperfry.com"; lit "ikea.com"; lit "urbanladder.com"].

(** [build_deep_link(site_name, base_url, query, category)]; [None] is an
    exception that leaves the function: the [ValueError] of [urlparse] or
    the [UnicodeEncodeError] of [quote], both raised before any host is
    tested. *)
Definition build_deep_link (site_name base_url query category : list N)
  : option (list N) :=
  netloc ← urlparse_netloc base_url;
  let host := lower netloc in
  let q_norm := normalize_text query in
  q_enc ← quote q_norm;
  Some (
    if contains (lit "amazon.in") host then
      if startswith (lit "amazon fashion") (lower site_name)
         || bool_decide (category = lit "fashion")
      then lit "https://www.amazon.in/s?k=" ++ q_enc ++ lit "&i=apparel"
      else lit "https://www.amazon.in/s?k=" ++ q_enc
    else if contains (lit "flipkart.com") host then
      lit "https://www.flipkart.com/search?q=" ++ q_enc
    else if contains (lit "croma.com") host then
      lit "https://www.croma.com/searchB?q=" ++ q_enc
    else if contains (lit "reliancedigital.in") host then
      lit "https://www.reliancedigital.in/search?q=" ++ q_enc
    else if contains (lit "myntra.com") host then
      let slug := to_slug q_norm in
      lit "https://www.myntra.com/" ++ slug ++ lit "?rawQuery=" ++ q_enc ++ lit "&p=1"
    else if contains (lit "ajio.com") host then
      lit "https://www.ajio.com/search/?text=" ++ q_enc
    else if contains (lit "pepperfry.com") host then
      lit "https://www.pepperfry.com/site_product/search?q=" ++ q_enc
    else if contains (lit "ikea.com") host then
      lit "https://www.ikea.com/in/en/search/?q=" ++ q_enc
    else if contains (lit "urbanladder.com") host then
      lit "https://www.urbanladder.com/products/search?keywords=" ++ q_enc
    else base_url).

End Suggestions.
End StreamlitApp.


(** ** Notions the specification uses *)

Module Spec.
Import Py.

(** Two characters that differ at most in the case of an ASCII letter. *)
Definition same_letter (a b : N) : Prop := ascii_lower a = ascii_lower b.

(** Two ASCII texts that differ only in the letter case of their
    characters. *)
Definition case_variant (s t : list N) : Prop :=
  forallb is_ascii s = true /\ Forall2 same_letter s t.

(** Letters outside ASCII whose upper case is an ASCII letter: U+017F
    LATIN SMALL LETTER LONG S, upper case S, and U+0131 LATIN SMALL LETTER
    DOTLESS I, upper case I. *)
Definition ascii_upper_of (c : N) : option N :=
  if c =? 383 then Some 83 else if c =? 305 then Some 73 else None.

(** Two characters that are the same letter, in any case. *)
Definition same_letter_any (a b : N) : Prop :=
  same_letter a b \/ ascii_upper_of a = Some b \/ ascii_upper_of b = Some a.

(** Two texts that differ only in the letter case of their characters. *)
Definition differ_only_in_case (s t : list N) : Prop :=
  Forall2 same_letter_any s t.



(** The characters a slug may hold. *)
Definition slug_char (c : N) : bool :=
  is_lower_az c || is_digit_09 c || (c =? 45).

(** [s] nowhere holds two hyphens in a row. *)
Definition no_double_hyphen (s : list N) : Prop :=
  forall l1 l2, s <> l1 ++ 45 :: 45 :: l2.

(** The same, checked from left to right. *)
Fixpoint hyphens_apart (s : list N) : Prop :=
  match s with
  | a :: (b :: _) as s' => ~ (a = 45 /\ b = 45) /\ hyphens_apart s'
  | _ => True
  end.

(** An ASCII letter or digit. *)
Definition is_ascii_alnum (c : N) : bool :=
  is_upper_az c || is_lower_az c || is_digit_09 c.

(** The value a decoded object holds for a key: the last member with
    that key wins, as in the dictionary [json.loads] builds. *)
Fixpoint dict_get (k : list N) (members : list (list N * json)) : option json :=
  match members with
  | [] => None
  | (k', v) :: rest =>
      match dict_get k rest with
      | Some v' => Some v'
      | None => if bool_decide (k' = k) then Some v else None
      end
  end.

(** The first two declared strengths of a site, when it declares any. *)
Definition strength_tip (w : App.site) : list N :=
  match App.strengths w with
  | Some (a :: b :: _) => a ++ lit ", " ++ b
  | Some [a] => a
  | _ => lit "good selection and reliability"
  end.

Section WithRuntime.
Context {rt : Runtime}.

(** The model call failed: it raised, it returned no text, it returned
    text that is not JSON, or JSON that is not an object. *)
Definition batch_fault (o : outcome (list N)) : Prop :=
  match o with
  | Raised => True
  | Returned raw =>
      raw = [] \/ App.json_loads raw = None \/
      exists v, App.json_loads raw = Some v /\ forall members, v <> JObj members
  end.

(** The same for the per-site call: it raised, or the content of its
    message is missing, not a text, or empty up to white space. *)
Definition site_fault (o : outcome StreamlitApp.content) : Prop :=
  match o with
  | Raised => True
  | Returned StreamlitApp.ContentNone => True
  | Returned StreamlitApp.ContentBlocks => True
  | Returned (StreamlitApp.ContentStr s) =>
      Forall (fun c => isspace c = true) s
  end.

(** The reading of the specification in which one sentence serves both
    applications: strengths and category, then the budget hint. *)
Definition claimed_reason (w : App.site) (category query : list N) : list N :=
  (lit "Great for " ++ category ++ lit "; known for " ++ strength_tip w ++ lit ".")
  ++ (if StreamlitApp.budget_present query then StreamlitApp.budget_hint else []).


(** The text holds a budget token: one of the markers, then any white
    space, then a digit. *)
Definition has_budget_token (text : list N) : Prop :=
  exists pre marker spaces d post,
    text = pre ++ marker ++ spaces ++ d :: post /\
    marker ∈ StreamlitApp.budget_markers /\
    Forall (fun c => isspace c = true) spaces /\
    isdigit d = true.

(** Two texts have the same lower-casing. *)
Definition same_up_to_case (s t : list N) : Prop := lower s = lower t.

(** Two texts that [str.lower] makes equal: ASCII texts that differ
    character by character in the case of a letter at most or, for texts
    of any characters, texts with the same lower-casing. *)
Definition lowered_alike (s t : list N) : Prop :=
  case_variant s t \/ same_up_to_case s t.

(** Two keyword lists that [str.lower] makes equal, keyword by keyword. *)
Definition same_keywords (kws1 kws2 : list (list N)) : Prop :=
  Forall2 lowered_alike kws1 kws2.

End WithRuntime.
End Spec.

(** ** A runtime to evaluate examples with

    It agrees with Python on what the examples of this file consult: texts
    made of ASCII characters, of U+212A KELVIN SIGN and of characters
    without case; URLs of the form [https://host/path] in lower case; and
    the JSON documents named below.  The general statements never use it. *)

Module Demo.
Import Py.

Definition dq : list N := [34].

(** The document [{"Amazon India": "Good."}] and what it decodes to. *)
Definition partial_doc : list N :=
  lit "{" ++ dq ++ lit "Amazon India" ++ dq ++ lit ": " ++
  dq ++ lit "Good." ++ dq ++ lit "}".

Definition partial_obj : json :=
  JObj [(lit "Amazon India", JStr (lit "Good."))].

(** A document whose only key names no site: [{"Shop": "Fine."}]. *)
Definition stray_doc : list N :=
  lit "{" ++ dq ++ lit "Shop" ++ dq ++ lit ": " ++
  dq ++ lit "Fine." ++ dq ++ lit "}".

Definition stray_obj : json := JObj [(lit "Shop", JStr (lit "Fine."))].

(** The document [[1, 2]], valid JSON that is not an object. *)
Definition array_doc : list N := lit "[1, 2]".

Definition decode (raw : list N) : option json :=
  if bool_decide (raw = partial_doc) then Some partial_obj
  else if bool_decide (raw = stray_doc) then Some stray_obj
  else if bool_decide (raw = array_doc)
       then Some (JArr [JNum (lit "1"); JNum (lit "2")])
  else None.

Definition repr (v : json) : list N :=
  match v with
  | JNull => lit "None"
  | JBool true => lit "True"
  | JBool false => lit "False"
  | JNum lexeme => lexeme
  | JStr s => s
  | _ => []
  end.

Definition lower_char (c : N) : list N :=
  if c =? 8490 then [107] else [ascii_lower c].

Definition unicode_space (c : N) : bool :=
  (c =? 133) || (c =? 160) || (c =? 5760) || between 8192 8202 c ||
  (c =? 8232) || (c =? 8233) || (c =? 8239) || (c =? 8287) || (c =? 12288).

Definition unicode_decimal (c : N) : bool :=
  between 1632 1641 c || between 2406 2415 c.

Definition unicode_word (c : N) : bool :=
  (between 192 255 c && negb (c =? 215) && negb (c =? 247)) ||
  (c =? 8490) || unicode_decimal c.

(** The authority of [scheme://authority/path?query#fragment]. *)
Fixpoint authority (s : list N) : list N :=
  match s with
  | [] => []
  | c :: s' =>
      if (c =? 47) || (c =? 63) || (c =? 35) then [] else c :: authority s'
  end.

Definition netloc (url : list N) : option (list N) :=
  match after_prefix (lit "https://") url with
  | Some rest => Some (authority rest)
  | None =>
      match after_prefix (lit "http://") url with
      | Some rest => Some (authority rest)
      | None => Some []
      end
  end.

(** A surrogate code point, which UTF-8 does not encode. *)
Definition is_surrogate (c : N) : bool := between 55296 57343 c.

(** UTF-8, then percent-encoding of every byte that is not unreserved or
    a slash. *)
Definition utf8 (c : N) : list N :=
  if c <? 128 then [c]
  else if c <? 2048 then [192 + c / 64; 128 + c mod 64]
  else if c <? 65536
       then [224 + c / 4096; 128 + (c / 64) mod 64; 128 + c mod 64]
  else [240 + c / 262144; 128 + (c / 4096) mod 64;
        128 + (c / 64) mod 64; 128 + c mod 64].

Definition hex (d : N) : N := if d <? 10 then 48 + d else 55 + d.

Definition quote_byte (b : N) : list N :=
  if is_upper_az b || is_lower_az b || is_digit_09 b ||
     (b =? 95) || (b =? 46) || (b =? 45) || (b =? 126) || (b =? 47)
  then [b]
  else [37; hex (b / 16); hex (b mod 16)].

Definition runtime : Runtime := {|
  u_lower s := s ≫= lower_char;
  u_isspace := unicode_space;
  u_isdecimal := unicode_decimal;
  u_isword := unicode_word;
  json_decode := decode;
  json_repr := repr;
  urlparse_netloc := netloc;
  quote s :=
    if existsb is_surrogate s then None
    else Some ((s ≫= utf8) ≫= quote_byte)
|}.

(** Sample data. *)
Definition amazon : App.site :=
  {| App.name := lit "Amazon India";
     App.url := Some (lit "https://www.amazon.in");
     App.strengths := Some [lit "fast delivery"; lit "wide selection";
                            lit "easy returns"] |}.

Definition flipkart : App.site :=
  {| App.name := lit "Flipkart";
     App.url := Some (lit "https://www.flipkart.com");
     App.strengths := None |}.

End Demo.

Module DemoTables.
Import Py.

(** Three categories; the query below hits the first once, the second
    twice and the third never. *)
Definition categories_map : list (list N * list (list N)) :=
  [(lit "fashion", [lit "shirt"; lit "Shoes"]);
   (lit "electronics", [lit "Laptop"; lit "mobile"; lit "charger"]);
   (lit "furniture", [lit "sofa"; lit "table"])].

Definition categories : list (list N * StreamlitApp.category_cfg) :=
  [(lit "fashion", {| StreamlitApp.keywords := Some [lit "shirt"; lit "Shoes"] |});
   (lit "electronics",
    {| StreamlitApp.keywords := Some [lit "Laptop"; lit "mobile"; lit "charger"] |});
   (lit "furniture", {| StreamlitApp.keywords := None |})].

Definition query : list N := lit "A LAPTOP, a mobile  and shoes".

(** Two categories that tie on the query below. *)
Definition tied_map : list (list N * list (list N)) :=
  [(lit "furniture", [lit "sofa"]);
   (lit "fashion", [lit "shirt"; lit "shoes"]);
   (lit "sports", [lit "shoes"; lit "running"])].

Definition tied : list (list N * StreamlitApp.category_cfg) :=
  [(lit "furniture", {| StreamlitApp.keywords := Some [lit "sofa"] |});
   (lit "fashion", {| StreamlitApp.keywords := Some [lit "shirt"; lit "shoes"] |});
   (lit "sports", {| StreamlitApp.keywords := Some [lit "shoes"; lit "running"] |})].

Definition tied_query : list N := lit "running shoes and a shirt".

End DemoTables.

(** ** The rest of [src/app.py]: keyword index, rendering, the page *)

Module AppMain.
Import Py.

(** What [load_json] yields: the decoded file, or the exception raised. *)
Inductive loaded (A : Type) : Type :=
  | Loaded (a : A)
  | FileNotFoundError
  | JSONDecodeError
  | OtherException.
Arguments Loaded {A} a.
Arguments FileNotFoundError {A}.
Arguments JSONDecodeError {A}.
Arguments OtherException {A}.

(** What the page shows after the button is pressed. *)
Inductive page : Type :=
  | WarnEmptyQuery
  | ErrorDatasetMissing
  | ErrorDatasetUnparsable
  | Uncaught
  | InfoNoCategory
  | InfoNoSites (category : list N)
  | Suggestions (category : list N) (fallback_notice : bool)
                (lines : list (list N)).

(** The three characters the source holds between link and reason. *)
Definition dash : list N := [226; 8364; 8221].

Section Main.
Context {rt : Runtime}.

(** [build_keyword_index(categories_map)] *)
Definition build_keyword_index
    (categories_map : list (list N * list (list N)))
  : gmap (list N) (list N) :=
  foldl (fun index item =>
           foldl (fun index kw =>
                    <[strip isspace (lower kw) := item.1]> index)
                 index item.2)
        ∅ categories_map.

(** [ensure_llm()]: [api_key_env] is the environment variable, when set;
    [ChatOpenAI] is [None] when the import failed, and otherwise what
    calling the constructor yields. *)
Definition ensure_llm {L : Type} (api_key_env : option (list N))
    (ChatOpenAI : option (outcome L)) : option L :=
  let api_key := strip isspace (default [] api_key_env) in
  match api_key with
  | [] => None
  | _ =>
      match ChatOpenAI with
      | None => None
      | Some Raised => None
      | Some (Returned llm) => Some llm
      end
  end.

(** The markdown line of one site in [render_links_with_reasons]. *)
Definition link_line (reasons : gmap (list N) (list N)) (w : App.site)
  : list N :=
  let name := App.name w in
  let url := default (lit "#") (App.url w) in
  let reason := strip isspace (default [] (reasons !! name)) in
  lit "- [" ++ name ++ lit "](" ++ url ++ lit ") " ++ dash ++ lit " " ++ reason.

(** [render_links_with_reasons(websites, reasons)]: the lines handed to
    [st.markdown], in order. *)
Definition render_links_with_reasons (websites : list App.site)
    (reasons : gmap (list N) (list N)) : list (list N) :=
  link_line reasons <$> websites.

(** The body of [if submit:]. *)
Definition on_submit (user_query : list N)
    (categories_file : loaded (list (list N * list (list N))))
    (websites_file : loaded (gmap (list N) (list App.site)))
    (api_key_env : option (list N))
    (ChatOpenAI : option (outcome (App.prompt_inputs -> outcome (list N))))
  : page :=
  match strip isspace user_query with
  | [] => WarnEmptyQuery
  | _ =>
      match categories_file, websites_file with
      | FileNotFoundError, _ => ErrorDatasetMissing
      | JSONDecodeError, _ => ErrorDatasetUnparsable
      | OtherException, _ => Uncaught
      | Loaded _, FileNotFoundError => ErrorDatasetMissing
      | Loaded _, JSONDecodeError => ErrorDatasetUnparsable
      | Loaded _, OtherException => Uncaught
      | Loaded categories_map, Loaded websites_map =>
          match App.detect_category user_query categories_map with
          | None | Some [] => InfoNoCategory
          | Some category =>
              let sites := default [] (websites_map !! category) in
              match sites with
              | [] => InfoNoSites category
              | _ =>
                  match ensure_llm api_key_env ChatOpenAI with
                  | None =>
                      Suggestions category true
                        (render_links_with_reasons sites
                           (App.build_fallback_reasons sites category
                                                       user_query))
                  | Some llm =>
                      Suggestions category false
                        (render_links_with_reasons sites
                           (App.generate_reasons_for_websites
                              (App.chain_of llm) user_query category sites))
                  end
              end
          end
      end
  end.

End Main.
End AppMain.

(** ** The rest of [src/streamlit-app/app.py]: the page *)

Module StreamlitMain.
Import Py.

(** A site record as the page reads it, with [site.get]. *)
Record site : Type := {
  name : option (list N);
  url : option (list N)
}.

(** One rendered site: the markdown line and the caption under it. *)
Record item : Type := {
  markdown : list N;
  caption : list N
}.

Inductive page : Type :=
  | WarnEmptyQuery
  | ErrorDatasets
  | InfoNoCategory
  | InfoNoSites (category : list N)
  | Suggestions (category : list N) (items : list item) (crashed : bool).

Section Main.
Context {rt : Runtime}.

(** [make_llm()]: [ChatOpenAI] is what calling the constructor yields. *)
Definition make_llm {L : Type} (lc_available : bool)
    (api_key_env : option (list N)) (ChatOpenAI : outcome L) : option L :=
  let api_key := default [] api_key_env in
  if negb lc_available || bool_decide (api_key = []) then None
  else match ChatOpenAI with
       | Raised => None
       | Returned llm => Some llm
       end.

(** The loop over the sites: the items rendered so far, and whether
    [build_deep_link] raised, which ends the run. *)
Fixpoint render_sites (llm : option (list N -> outcome StreamlitApp.content))
    (query category : list N) (sites : list site) : list item * bool :=
  match sites with
  | [] => ([], false)
  | site :: rest =>
      let name := default (lit "Website") (name site) in
      let base_url := default (lit "#") (url site) in
      match StreamlitApp.build_deep_link name base_url query category with
      | None => ([], true)
      | Some deep_url =>
          let reason :=
            match llm with
            | Some l =>
                StreamlitApp.reason_with_llm l query category name deep_url
            | None => StreamlitApp.deterministic_reason name category query
            end in
          let rendered := render_sites llm query category rest in
          ({| markdown := lit "- [" ++ name ++ lit "](" ++ deep_url ++ lit ")";
              caption := reason |} :: rendered.1,
           rendered.2)
      end
  end.

(** The body of [if submitted:]; [datasets] is [None] when
    [load_datasets] raised. *)
Definition on_submit (query : list N)
    (datasets : option (list (list N * StreamlitApp.category_cfg)
                        * gmap (list N) (list site)))
    (llm : option (list N -> outcome StreamlitApp.content)) : page :=
  match strip isspace query with
  | [] => WarnEmptyQuery
  | _ =>
      match datasets with
      | None => ErrorDatasets
      | Some (categories, websites) =>
          match StreamlitApp.extract_category query categories with
          | None | Some [] => InfoNoCategory
          | Some category =>
              let sites := default [] (websites !! category) in
              match sites with
              | [] => InfoNoSites category
              | _ =>
                  let rendered := render_sites llm query category sites in
                  Suggestions category rendered.1 rendered.2
              end
          end
      end
  end.

End Main.
End StreamlitMain.

(** ** Further notions used to state properties *)

Module Props.
Import Py.

(** No two neighbouring characters of [s] are both in the class [p],
    checked from left to right. *)
Fixpoint apart (p : N -> bool) (s : list N) : Prop :=
  match s with
  | a :: (b :: _) as s' => ~ (p a = true /\ p b = true) /\ apart p s'
  | _ => True
  end.

(** The same, stated on any place of [s]. *)
Definition never_adjacent (p : N -> bool) (s : list N) : Prop :=
  forall l1 a b l2, s = l1 ++ a :: b :: l2 -> ~ (p a = true /\ p b = true).

(** The last site of the list that carries the name [k]. *)
Fixpoint last_named (k : list N) (websites : list App.site)
  : option App.site :=
  match websites with
  | [] => None
  | w :: rest =>
      match last_named k rest with
      | Some w' => Some w'
      | None => if bool_decide (App.name w = k) then Some w else None
      end
  end.

(** One of the three characters that end a sentence. *)
Definition is_stop (c : N) : bool := (c =? 46) || (c =? 33) || (c =? 63).

(** The roots of the nine retailer sites the links lead to. *)
Definition retailer_roots : list (list N) :=
  [lit "https://www.amazon.in/"; lit "https://www.flipkart.com/";
   lit "https://www.croma.com/"; lit "https://www.reliancedigital.in/";
   lit "https://www.myntra.com/"; lit "https://www.ajio.com/";
   lit "https://www.pepperfry.com/"; lit "https://www.ikea.com/";
   lit "https://www.urbanladder.com/"].

End Props.

Module DemoSites.
Import Py.

Definition corner_shop : StreamlitMain.site :=
  {| StreamlitMain.name := Some (lit "Corner Shop");
     StreamlitMain.url := Some (lit "https://www.example.org/shop") |}.

Definition nameless : StreamlitMain.site :=
  {| StreamlitMain.name := None;
     StreamlitMain.url := Some (lit "https://shop.example.net") |}.

Definition websites_map : gmap (list N) (list App.site) :=
  {[ lit "electronics" := [Demo.amazon; Demo.flipkart] ]}.

End DemoSites.

(** A runtime like [Demo.runtime] whose [urlparse] also raises as
    Python's does on an authority with an unmatched square bracket. *)
Module StrictDemo.
Import Py.

Definition has (c : N) (s : list N) : bool := existsb (N.eqb c) s.

Definition netloc (url : list N) : option (list N) :=
  match Demo.netloc url with
  | Some authority =>
      if (has 91 authority && negb (has 93 authority))
         || (has 93 authority && negb (has 91 authority))
      then None
      else Some authority
  | None => None
  end.

Definition runtime : Runtime := {|
  u_lower := u_lower (Runtime := Demo.runtime);
  u_isspace := Demo.unicode_space;
  u_isdecimal := Demo.unicode_decimal;
  u_isword := Demo.unicode_word;
  json_decode := Demo.decode;
  json_repr := Demo.repr;
  urlparse_netloc := netloc;
  quote := quote (Runtime := Demo.runtime)
|}.

Definition broken : StreamlitMain.site :=
  {| StreamlitMain.name := Some (lit "Broken");
     StreamlitMain.url := Some (lit "https://[broken/shop") |}.

End StrictDemo.
(** ** The selection loop *)

Section BestCategory.
Context {V : Type} (score : V -> nat).
Implicit Types (st : option (list N) * nat) (table : list (list N * V)).

Lemma pick_below st item bound :
  (st.2 < bound)%nat -> (score item.2 < bound)%nat ->
  ((Py.pick score st item).2 < bound)%nat.
Proof.
  intros Hst Hit. unfold Py.pick.
  destruct (st.2 <? score item.2)%nat; simpl; assumption.
Qed.

Lemma scan_below table : forall st bound,
  (st.2 < bound)%nat ->
  Forall (fun item => (score item.2 < bound)%nat) table ->
  ((foldl (Py.pick score) st table).2 < bound)%nat.
Proof.
  induction table as [|item table IH]; intros st bound Hst Hall; simpl.
  - exact Hst.
  - inversion Hall; subst. apply IH; [apply pick_below|]; assumption.
Qed.

Lemma scan_keeps table : forall st,
  Forall (fun item => (score item.2 <= st.2)%nat) table ->
  foldl (Py.pick score) st table = st.
Proof.
  induction table as [|item table IH]; intros st Hall; simpl.
  - reflexivity.
  - inversion Hall as [|? ? Hle Hrest]; subst.
    assert (Py.pick score st item = st) as ->.
    { unfold Py.pick. destruct (Nat.ltb_spec st.2 (score item.2)); [lia|reflexivity]. }
    apply IH, Hrest.
Qed.

(** The scan stops at the first item that reaches the highest score. *)
Lemma scan_first_max pre c v post st :
  (st.2 < score v)%nat ->
  Forall (fun item => (score item.2 < score v)%nat) pre ->
  Forall (fun item => (score item.2 <= score v)%nat) post ->
  foldl (Py.pick score) st (pre ++ (c, v) :: post) = (Some c, score v).
Proof.
  intros Hst Hpre Hpost. rewrite foldl_app. simpl.
  pose proof (scan_below pre st (score v) Hst Hpre) as Hlt.
  assert (Py.pick score (foldl (Py.pick score) st pre) (c, v)
          = (Some c, score v)) as ->.
  { unfold Py.pick at 1. simpl.
    destruct (Nat.ltb_spec (foldl (Py.pick score) st pre).2 (score v));
      [reflexivity|lia]. }
  apply scan_keeps. exact Hpost.
Qed.

Lemma best_category_first_max pre c v post :
  (0 < score v)%nat ->
  Forall (fun item => (score item.2 < score v)%nat) pre ->
  Forall (fun item => (score item.2 <= score v)%nat) post ->
  Py.best_category score (pre ++ (c, v) :: post) = Some c.
Proof.
  intros Hpos Hpre Hpost. unfold Py.best_category.
  rewrite (scan_first_max pre c v post (None, 0%nat)) by (simpl; auto).
  simpl. destruct (Nat.ltb_spec 0 (score v)); [done|lia].
Qed.

Lemma best_category_no_match table :
  Forall (fun item => score item.2 = 0%nat) table ->
  Py.best_category score table = None.
Proof.
  intros Hall. unfold Py.best_category.
  rewrite scan_keeps; [reflexivity|].
  eapply Forall_impl; [exact Hall|]. simpl. intros item ->. lia.
Qed.

Lemma key_determines_value table c v v' :
  NoDup table.*1 -> (c, v) ∈ table -> (c, v') ∈ table -> v = v'.
Proof.
  induction table as [|[k w] table IH]; simpl; intros Hnd H1 H2.
  - inversion H1.
  - apply NoDup_cons in Hnd as [Hk Hnd].
    apply elem_of_cons in H1 as [H1|H1]; apply elem_of_cons in H2 as [H2|H2].
    + congruence.
    + inversion H1; subst. exfalso. apply Hk.
      apply (list_elem_of_fmap_2 fst _ (k, v')), H2.
    + inversion H2; subst. exfalso. apply Hk.
      apply (list_elem_of_fmap_2 fst _ (k, v)), H1.
    + apply IH; assumption.
Qed.

(** A category whose score is positive and strictly above the score of
    every other item is the one the loop answers. *)
Lemma best_category_strict_max table c v :
  (c, v) ∈ table -> (0 < score v)%nat ->
  (forall item, item ∈ table -> item.1 <> c -> (score item.2 < score v)%nat) ->
  NoDup table.*1 ->
  Py.best_category score table = Some c.
Proof.
  intros Hin Hpos Hother Hnd.
  apply list_elem_of_split in Hin as (pre & post & ->).
  assert (forall item, item ∈ pre ++ post -> item.1 <> c) as Hne.
  { intros [k w] Hitem Hk. simpl in Hk. subst k.
    rewrite fmap_app in Hnd. simpl in Hnd.
    apply NoDup_app in Hnd as (_ & Hdisj & Hpost).
    apply NoDup_cons in Hpost as [Hc _].
    apply elem_of_app in Hitem as [Hitem|Hitem].
    - apply (Hdisj c); [|left].
      apply (list_elem_of_fmap_2 fst _ (c, w)), Hitem.
    - apply Hc. apply (list_elem_of_fmap_2 fst _ (c, w)), Hitem. }
  apply best_category_first_max; [exact Hpos| |].
  - apply Forall_forall. intros item Hitem.
    apply Hother; [|apply Hne]; set_solver.
  - apply Forall_forall. intros item Hitem.
    apply Nat.lt_le_incl, Hother; [|apply Hne]; set_solver.
Qed.

End BestCategory.

(** Two tables with the same categories in the same order and the same
    scores, item by item, give the same answer. *)
Lemma best_category_ext {V W : Type} (f : V -> nat) (g : W -> nat)
    (t1 : list (list N * V)) (t2 : list (list N * W)) :
  Forall2 (fun a b => a.1 = b.1 /\ f a.2 = g b.2) t1 t2 ->
  Py.best_category f t1 = Py.best_category g t2.
Proof.
  intros H. unfold Py.best_category.
  enough (forall st, foldl (Py.pick f) st t1 = foldl (Py.pick g) st t2) as ->
    by reflexivity.
  induction H as [|a b t1 t2 [Hk Hs] _ IH]; intros st; simpl.
  - reflexivity.
  - unfold Py.pick at 2 4. rewrite Hk, Hs. apply IH.
Qed.

(** ** Category detection *)

Section Detection.
Context {rt : Py.Runtime}.

(** With exactly two matching categories, the one with more hits wins. *)
Lemma best_category_two_way {V : Type} (score : V -> nat)
    (table : list (list N * V)) c1 v1 c2 v2 :
  NoDup table.*1 ->
  (c1, v1) ∈ table -> (c2, v2) ∈ table ->
  (score v2 < score v1)%nat ->
  (forall item, item ∈ table -> item.1 <> c1 -> item.1 <> c2 ->
                score item.2 = 0%nat) ->
  Py.best_category score table = Some c1.
Proof.
  intros Hnd H1 H2 Hlt Hzero.
  apply (best_category_strict_max score table c1 v1); [done|lia| |done].
  intros [k w] Hin Hk. simpl in *.
  destruct (decide (k = c2)) as [->|Hk2].
  - rewrite (key_determines_value table c2 w v2 Hnd Hin H2). exact Hlt.
  - pose proof (Hzero (k, w) Hin Hk Hk2) as Hz. simpl in Hz. lia.
Qed.

(** ASCII texts that differ only in letter case have the same
    lower-casing. *)
Lemma case_variant_same_up_to_case s t :
  Spec.case_variant s t -> Spec.same_up_to_case s t.
Proof.
  intros [Hs H]. unfold Spec.same_up_to_case, Py.lower.
  assert (forallb Py.is_ascii t = true /\
          Py.ascii_lower <$> s = Py.ascii_lower <$> t) as [Ht Heq].
  { clear -Hs H. induction H as [|a b s t Hab _ IH]; [done|].
    simpl in Hs. apply andb_true_iff in Hs as [Ha Hs].
    destruct (IH Hs) as [Ht Heq]. split.
    - simpl. rewrite Ht, andb_true_r.
      unfold Spec.same_letter in Hab. revert Ha Hab.
      unfold Py.is_ascii, Py.ascii_lower, Py.is_upper_az, Py.between.
      intros Ha%N.ltb_lt.
      destruct (N.leb_spec 65 a); destruct (N.leb_spec a 90);
        destruct (N.leb_spec 65 b); destruct (N.leb_spec b 90); simpl;
        intros Hab; apply N.ltb_lt; lia.
    - rewrite !fmap_cons, Heq. f_equal. exact Hab. }
  rewrite Hs, Ht. exact Heq.
Qed.

(** C3. When the query holds keywords of two categories of the table, with
    different match counts, and of no other, both detectors answer the
    category with the greater count; when no keyword of the table matches
    (in particular when the table is empty), both answer [None]. *)
Theorem detect_higher_count_or_none (query : list N) :
  (forall table c1 kws1 c2 kws2,
      NoDup table.*1 ->
      (c1, kws1) ∈ table -> (c2, kws2) ∈ table ->
      (0 < App.keyword_hits (Py.lower query) kws2
         < App.keyword_hits (Py.lower query) kws1)%nat ->
      (forall item, item ∈ table -> item.1 <> c1 -> item.1 <> c2 ->
                    App.keyword_hits (Py.lower query) item.2 = 0%nat) ->
      App.detect_category query table = Some c1) /\
  (forall table c1 cfg1 c2 cfg2,
      NoDup table.*1 ->
      (c1, cfg1) ∈ table -> (c2, cfg2) ∈ table ->
      (0 < StreamlitApp.keyword_hits (StreamlitApp.normalize_text query) cfg2
         < StreamlitApp.keyword_hits (StreamlitApp.normalize_text query) cfg1)%nat ->
      (forall item, item ∈ table -> item.1 <> c1 -> item.1 <> c2 ->
         StreamlitApp.keyword_hits (StreamlitApp.normalize_text query) item.2
         = 0%nat) ->
      StreamlitApp.extract_category query table = Some c1) /\
  (forall table,
      Forall (fun item => App.keyword_hits (Py.lower query) item.2 = 0%nat)
             table ->
      App.detect_category query table = None) /\
  (forall table,
      Forall (fun item =>
                StreamlitApp.keyword_hits (StreamlitApp.normalize_text query)
                                          item.2 = 0%nat) table ->
      StreamlitApp.extract_category query table = None) /\
  App.detect_category query [] = None /\
  StreamlitApp.extract_category query [] = None.
Proof.
  repeat split.
  - intros table c1 kws1 c2 kws2 Hnd H1 H2 [_ Hlt] Hzero.
    exact (best_category_two_way _ table c1 kws1 c2 kws2 Hnd H1 H2 Hlt Hzero).
  - intros table c1 cfg1 c2 cfg2 Hnd H1 H2 [_ Hlt] Hzero.
    exact (best_category_two_way _ table c1 cfg1 c2 cfg2 Hnd H1 H2 Hlt Hzero).
  - intros table Hall. apply best_category_no_match, Hall.
  - intros table Hall. apply best_category_no_match, Hall.
Qed.

(** C4. When several categories reach the same highest, positive score,
    both detectors answer the one that comes first in the table: every
    category before it scores strictly less, none after it scores more. *)
Theorem detect_first_of_ties (query : list N) :
  (forall pre c kws post,
      (0 < App.keyword_hits (Py.lower query) kws)%nat ->
      Forall (fun item => (App.keyword_hits (Py.lower query) item.2
                           < App.keyword_hits (Py.lower query) kws)%nat) pre ->
      Forall (fun item => (App.keyword_hits (Py.lower query) item.2
                           <= App.keyword_hits (Py.lower query) kws)%nat) post ->
      App.detect_category query (pre ++ (c, kws) :: post) = Some c) /\
  (forall pre c cfg post,
      let q := StreamlitApp.normalize_text query in
      (0 < StreamlitApp.keyword_hits q cfg)%nat ->
      Forall (fun item => (StreamlitApp.keyword_hits q item.2
                           < StreamlitApp.keyword_hits q cfg)%nat) pre ->
      Forall (fun item => (StreamlitApp.keyword_hits q item.2
                           <= StreamlitApp.keyword_hits q cfg)%nat) post ->
      StreamlitApp.extract_category query (pre ++ (c, cfg) :: post) = Some c).
Proof.
  split.
  - intros pre c kws post Hpos Hpre Hpost.
    apply best_category_first_max; assumption.
  - intros pre c cfg post q Hpos Hpre Hpost.
    apply best_category_first_max; assumption.
Qed.

Lemma lowered_alike_lower s t :
  Spec.lowered_alike s t -> Py.lower s = Py.lower t.
Proof.
  intros [H|H]; [apply case_variant_same_up_to_case, H|exact H].
Qed.

Lemma app_hits_same_keywords text kws1 kws2 :
  Spec.same_keywords kws1 kws2 ->
  App.keyword_hits text kws1 = App.keyword_hits text kws2.
Proof.
  unfold App.keyword_hits, Py.count_if.
  induction 1 as [|k1 k2 kws1 kws2 Hk _ IH]; simpl; [reflexivity|].
  rewrite (lowered_alike_lower _ _ Hk).
  destruct (Py.contains (Py.lower k2) text); simpl; congruence.
Qed.

Lemma streamlit_hits_same_keywords q cfg1 cfg2 :
  Spec.same_keywords (default [] (StreamlitApp.keywords cfg1))
                     (default [] (StreamlitApp.keywords cfg2)) ->
  StreamlitApp.keyword_hits q cfg1 = StreamlitApp.keyword_hits q cfg2.
Proof.
  unfold StreamlitApp.keyword_hits, Py.count_if.
  induction 1 as [|k1 k2 kws1 kws2 Hk _ IH]; simpl; [reflexivity|].
  rewrite (lowered_alike_lower _ _ Hk).
  destruct (StreamlitApp.search_word (Py.lower k2) None q); simpl; congruence.
Qed.

(** C10, amended. Detection reads the query and the keywords through
    [str.lower] only: two queries with the same lower-casing, as any two
    ASCII queries that differ only in letter case have, get the same
    answer from either detector, against the same table and against two
    tables with the same categories in the same order whose keywords have
    the same lower-casing. *)
Theorem detect_case_insensitive (q1 q2 : list N) :
  Spec.case_variant q1 q2 \/ Py.lower q1 = Py.lower q2 ->
  (forall t1 t2,
      Forall2 (fun a b => a.1 = b.1 /\ Spec.same_keywords a.2 b.2) t1 t2 ->
      App.detect_category q1 t1 = App.detect_category q2 t2) /\
  (forall t1 t2,
      Forall2 (fun a b =>
                 a.1 = b.1 /\
                 Spec.same_keywords (default [] (StreamlitApp.keywords a.2))
                                    (default [] (StreamlitApp.keywords b.2)))
              t1 t2 ->
      StreamlitApp.extract_category q1 t1 = StreamlitApp.extract_category q2 t2) /\
  (forall t, App.detect_category q1 t = App.detect_category q2 t) /\
  (forall t, StreamlitApp.extract_category q1 t
             = StreamlitApp.extract_category q2 t).
Proof.
  intros Hq%lowered_alike_lower.
  unfold App.detect_category, StreamlitApp.extract_category,
    StreamlitApp.normalize_text. rewrite Hq.
  repeat split.
  - intros t1 t2 H. apply best_category_ext.
    eapply Forall2_impl; [exact H|]. intros a b [Hk Hkw]. split; [exact Hk|].
    apply app_hits_same_keywords, Hkw.
  - intros t1 t2 H. apply best_category_ext.
    eapply Forall2_impl; [exact H|]. intros a b [Hk Hkw]. split; [exact Hk|].
    apply streamlit_hits_same_keywords, Hkw.
Qed.

End Detection.

Lemma detect_higher_count_or_none_witness :
  App.detect_category (rt := Demo.runtime) DemoTables.query
    DemoTables.categories_map = Some (Py.lit "electronics") /\
  StreamlitApp.extract_category (rt := Demo.runtime) DemoTables.query
    DemoTables.categories = Some (Py.lit "electronics") /\
  App.detect_category (rt := Demo.runtime) (Py.lit "running shorts")
    DemoTables.categories_map = None.
Proof.
  pose proof (detect_higher_count_or_none (rt := Demo.runtime)
                DemoTables.query) as (Happ & Hst & _).
  pose proof (detect_higher_count_or_none (rt := Demo.runtime)
                (Py.lit "running shorts")) as (_ & _ & Hnone & _).
  split; [|split].
  - apply (Happ DemoTables.categories_map
             (Py.lit "electronics") [Py.lit "Laptop"; Py.lit "mobile"; Py.lit "charger"]
             (Py.lit "fashion") [Py.lit "shirt"; Py.lit "Shoes"]).
    + apply (bool_decide_unpack _). vm_compute. exact I.
    + right. left.
    + left.
    + vm_compute. lia.
    + intros item Hin. vm_compute in Hin.
      repeat (apply elem_of_cons in Hin as [->|Hin]);
        [intros _ H; exfalso; apply H; reflexivity
        |intros H; exfalso; apply H; reflexivity
        |intros _ _; vm_compute; reflexivity
        |inversion Hin].
  - apply (Hst DemoTables.categories
             (Py.lit "electronics")
             {| StreamlitApp.keywords :=
                  Some [Py.lit "Laptop"; Py.lit "mobile"; Py.lit "charger"] |}
             (Py.lit "fashion")
             {| StreamlitApp.keywords := Some [Py.lit "shirt"; Py.lit "Shoes"] |}).
    + apply (bool_decide_unpack _). vm_compute. exact I.
    + right. left.
    + left.
    + vm_compute. lia.
    + intros item Hin. vm_compute in Hin.
      repeat (apply elem_of_cons in Hin as [->|Hin]);
        [intros _ H; exfalso; apply H; reflexivity
        |intros H; exfalso; apply H; reflexivity
        |intros _ _; vm_compute; reflexivity
        |inversion Hin].
  - apply Hnone. repeat constructor.
Defined.

Lemma detect_first_of_ties_witness :
  App.detect_category (rt := Demo.runtime) DemoTables.tied_query
    DemoTables.tied_map = Some (Py.lit "fashion") /\
  StreamlitApp.extract_category (rt := Demo.runtime) DemoTables.tied_query
    DemoTables.tied = Some (Py.lit "fashion").
Proof.
  pose proof (detect_first_of_ties (rt := Demo.runtime)
                DemoTables.tied_query) as [Happ Hst].
  split.
  - apply (Happ [(Py.lit "furniture", [Py.lit "sofa"])]
             (Py.lit "fashion") [Py.lit "shirt"; Py.lit "shoes"]
             [(Py.lit "sports", [Py.lit "shoes"; Py.lit "running"])]).
    + vm_compute. lia.
    + repeat constructor.
    + repeat constructor.
  - apply (Hst [(Py.lit "furniture",
                 {| StreamlitApp.keywords := Some [Py.lit "sofa"] |})]
             (Py.lit "fashion")
             {| StreamlitApp.keywords := Some [Py.lit "shirt"; Py.lit "shoes"] |}
             [(Py.lit "sports",
               {| StreamlitApp.keywords :=
                    Some [Py.lit "shoes"; Py.lit "running"] |})]).
    + vm_compute. lia.
    + repeat constructor.
    + repeat constructor.
Defined.

Lemma detect_case_insensitive_witness :
  App.detect_category (rt := Demo.runtime) (Py.lit "Gaming LAPTOP")
    DemoTables.categories_map
  = App.detect_category (rt := Demo.runtime) (Py.lit "gaming laptop")
      DemoTables.categories_map.
Proof.
  assert (Spec.case_variant (Py.lit "Gaming LAPTOP") (Py.lit "gaming laptop")
          \/ Py.lower (rt := Demo.runtime) (Py.lit "Gaming LAPTOP")
             = Py.lower (rt := Demo.runtime) (Py.lit "gaming laptop")) as Hq.
  { left. split; [vm_compute; reflexivity|].
    repeat constructor. }
  pose proof (detect_case_insensitive (rt := Demo.runtime) _ _ Hq)
    as (_ & _ & Hsame & _).
  apply Hsame.
Defined.

(** C10 as stated fails: "SOFA" and the same word written with U+017F,
    the long s whose upper case is S, differ only in letter case, but
    [str.lower] leaves the long s as it is, so the keyword "sofa" is found
    in the first query and not in the second. *)
Lemma detect_long_s_counterexample :
  let table := [(Py.lit "furniture", [Py.lit "sofa"])] in
  let long_s_ofa := 383 :: Py.lit "ofa" in
  Spec.differ_only_in_case (Py.lit "SOFA") long_s_ofa /\
  App.detect_category (rt := Demo.runtime) (Py.lit "SOFA") table
  = Some (Py.lit "furniture") /\
  App.detect_category (rt := Demo.runtime) long_s_ofa table = None.
Proof.
  cbv zeta. split; [|split; vm_compute; reflexivity].
  constructor; [right; right; reflexivity|].
  repeat (constructor; [left; reflexivity|]). constructor.
Qed.

(** ** Slugs *)

Section Strings.
Implicit Types (p : N -> bool) (s rep : list N).

Lemma lstrip_suffix p s : exists l, s = l ++ Py.lstrip p s.
Proof.
  induction s as [|c s [l IH]]; simpl.
  - exists []. reflexivity.
  - destruct (p c).
    + exists (c :: l). simpl. congruence.
    + exists []. reflexivity.
Qed.

Lemma lstrip_head p s c : head (Py.lstrip p s) = Some c -> p c = false.
Proof.
  induction s as [|x s IH]; simpl; [discriminate|].
  destruct (p x) eqn:Hx; [exact IH|].
  simpl. intros [= <-]. exact Hx.
Qed.

Lemma rstrip_prefix p s : exists r, s = Py.rstrip p s ++ r.
Proof.
  unfold Py.rstrip. destruct (lstrip_suffix p (reverse s)) as [l Hl].
  exists (reverse l). rewrite <- reverse_app, <- Hl.
  symmetry. apply reverse_involutive.
Qed.

Lemma rstrip_last p s c : last (Py.rstrip p s) = Some c -> p c = false.
Proof. unfold Py.rstrip. rewrite last_reverse. apply lstrip_head. Qed.

(** What [strip] returns is a piece of its argument. *)
Lemma strip_infix p s : exists l r, s = l ++ Py.strip p s ++ r.
Proof.
  unfold Py.strip. destruct (lstrip_suffix p s) as [l Hl].
  destruct (rstrip_prefix p (Py.lstrip p s)) as [r Hr].
  exists l, r. rewrite <- Hr. exact Hl.
Qed.

Lemma strip_head p s c : head (Py.strip p s) = Some c -> p c = false.
Proof.
  unfold Py.strip. intros Hc.
  destruct (rstrip_prefix p (Py.lstrip p s)) as [r Hr].
  apply (lstrip_head p s). rewrite Hr.
  destruct (Py.rstrip p (Py.lstrip p s)); [discriminate|exact Hc].
Qed.

Lemma strip_last p s c : last (Py.strip p s) = Some c -> p c = false.
Proof. unfold Py.strip. apply rstrip_last. Qed.

Lemma strip_Forall (Q : N -> Prop) p s :
  Forall Q s -> Forall Q (Py.strip p s).
Proof.
  intros H. destruct (strip_infix p s) as (l & r & Hs).
  rewrite Hs in H. apply Forall_app in H as [_ H].
  apply Forall_app in H as [H _]. exact H.
Qed.

Lemma strip_no_double_hyphen p s :
  Spec.no_double_hyphen s -> Spec.no_double_hyphen (Py.strip p s).
Proof.
  intros H l1 l2 Heq. destruct (strip_infix p s) as (l & r & Hs).
  apply (H (l ++ l1) (l2 ++ r)). rewrite Hs, Heq.
  rewrite <- !app_assoc. reflexivity.
Qed.

Lemma hyphens_apart_tail a s :
  Spec.hyphens_apart (a :: s) -> Spec.hyphens_apart s.
Proof. destruct s; simpl; tauto. Qed.

Lemma hyphens_apart_no_double s :
  Spec.hyphens_apart s -> Spec.no_double_hyphen s.
Proof.
  intros H l1. revert s H.
  induction l1 as [|a l1 IH]; intros s H l2 ->.
  - simpl in H. tauto.
  - apply (IH _ (hyphens_apart_tail _ _ H) l2). reflexivity.
Qed.

Lemma hyphens_apart_cons a s :
  head s <> Some 45 -> Spec.hyphens_apart s -> Spec.hyphens_apart (a :: s).
Proof.
  destruct s as [|b s]; simpl; [tauto|].
  intros Hb H. split; [|exact H]. intros [_ ->]. apply Hb. reflexivity.
Qed.

Lemma hyphens_apart_cons_other a s :
  a <> 45 -> Spec.hyphens_apart s -> Spec.hyphens_apart (a :: s).
Proof. destruct s as [|b s]; simpl; tauto. Qed.

(** Characters of a text whose runs were replaced: those of the
    replacement and those outside the class. *)
Lemma sub_runs_Forall (Q : N -> Prop) p rep s : forall in_run,
  Forall Q rep ->
  Forall (fun c => p c = false -> Q c) s ->
  Forall Q (Py.sub_runs p rep in_run s).
Proof.
  induction s as [|c s IH]; intros in_run Hrep Hs; simpl; [constructor|].
  inversion Hs as [|? ? Hc Hrest]; subst.
  destruct (p c).
  - apply Forall_app. split; [destruct in_run; [constructor|exact Hrep]|].
    apply IH; assumption.
  - constructor; [apply Hc; reflexivity|apply IH; assumption].
Qed.

(** A text that lies in the class entirely is replaced as one run. *)
Lemma sub_runs_all p rep s : forall in_run,
  Forall (fun c => p c = true) s ->
  Py.sub_runs p rep in_run s
  = match s with
    | [] => []
    | _ :: _ => if in_run then [] else rep
    end.
Proof.
  induction s as [|c s IH]; intros in_run Hs; simpl; [reflexivity|].
  inversion Hs as [|? ? Hc Hrest]; subst. rewrite Hc.
  rewrite (IH true Hrest). destruct s; destruct in_run; simpl;
    rewrite ?app_nil_r; reflexivity.
Qed.

Lemma sub_repeats_Forall (Q : N -> Prop) c rep s : forall in_run,
  Forall Q rep -> Forall Q s ->
  Forall Q (Py.sub_repeats c rep in_run s).
Proof.
  induction s as [|x s IH]; intros in_run Hrep Hs; [constructor|].
  inversion Hs as [|? ? Hx Hrest]; subst.
  cbn [Py.sub_repeats].
  destruct (x =? c).
  - destruct in_run; [apply IH; assumption|].
    destruct s as [|y s']; [repeat constructor; exact Hx|].
    destruct (y =? c).
    + apply Forall_app. split; [exact Hrep|apply IH; assumption].
    + constructor; [exact Hx|apply IH; assumption].
  - constructor; [exact Hx|apply IH; assumption].
Qed.

(** After the hyphen runs are collapsed, hyphens stand apart; inside a run
    no hyphen is emitted. *)
Lemma sub_repeats_apart s : forall in_run,
  Spec.hyphens_apart (Py.sub_repeats 45 [45] in_run s) /\
  (in_run = true \/ head s <> Some 45 ->
   head (Py.sub_repeats 45 [45] in_run s) <> Some 45).
Proof.
  induction s as [|x s IH]; intros in_run.
  - simpl. split; [exact I|discriminate].
  - cbn [Py.sub_repeats].
    destruct (N.eqb_spec x 45) as [->|Hx].
    + destruct in_run.
      * destruct (IH true) as [Hap Hhd]. split; [exact Hap|].
        intros _. apply Hhd. left. reflexivity.
      * split; [|intros [?|H]; [discriminate|exfalso; apply H; reflexivity]].
        destruct s as [|y s']; [exact I|].
        destruct (N.eqb_spec y 45) as [->|Hy].
        -- destruct (IH true) as [Hap Hhd]. simpl app.
           apply hyphens_apart_cons; [apply Hhd; left; reflexivity|exact Hap].
        -- destruct (IH false) as [Hap Hhd].
           apply hyphens_apart_cons; [|exact Hap].
           apply Hhd. right. simpl. congruence.
    + destruct (IH false) as [Hap _]. split.
      * apply hyphens_apart_cons_other; assumption.
      * intros _. simpl. congruence.
Qed.

End Strings.

Section Slug.
Context {rt : Py.Runtime}.

Lemma slug_alnum_slug_char c :
  StreamlitApp.is_slug_alnum c = true -> Spec.slug_char c = true.
Proof.
  unfold StreamlitApp.is_slug_alnum, Spec.slug_char.
  intros ->. reflexivity.
Qed.

(** The text of [to_slug] before its final [or "search"]. *)
Lemma slug_body_shape (s1 : list N) :
  let s3 := Py.strip StreamlitApp.is_hyphen
              (Py.sub_repeats 45 (Py.lit "-") false
                 (Py.sub_runs (fun c => negb (StreamlitApp.is_slug_alnum c))
                              (Py.lit "-") false s1)) in
  Forall (fun c => Spec.slug_char c = true) s3 /\
  head s3 <> Some 45 /\ last s3 <> Some 45 /\ Spec.no_double_hyphen s3.
Proof.
  intros s3. subst s3. repeat split.
  - apply strip_Forall, sub_repeats_Forall; [repeat constructor|].
    apply sub_runs_Forall; [repeat constructor|].
    apply Forall_forall. intros c _ Hc.
    apply slug_alnum_slug_char. apply negb_false_iff, Hc.
  - intros H. apply strip_head in H. discriminate.
  - intros H. apply strip_last in H. discriminate.
  - apply strip_no_double_hyphen, hyphens_apart_no_double.
    apply (sub_repeats_apart _ false).
Qed.

(** C7. A slug holds only lowercase ASCII letters, digits and hyphens; it
    neither starts nor ends with a hyphen and never holds two hyphens in a
    row. *)
Theorem to_slug_well_formed (s : list N) :
  Forall (fun c => Spec.slug_char c = true) (StreamlitApp.to_slug s) /\
  head (StreamlitApp.to_slug s) <> Some 45 /\
  last (StreamlitApp.to_slug s) <> Some 45 /\
  Spec.no_double_hyphen (StreamlitApp.to_slug s).
Proof.
  unfold StreamlitApp.to_slug.
  pose proof (slug_body_shape (StreamlitApp.normalize_text s)) as Hbody.
  cbv zeta in Hbody.
  destruct (Py.strip _ _) as [|c body] eqn:Hs3.
  - repeat split.
    + apply Forall_forall. intros c Hc. vm_compute in Hc.
      repeat (apply elem_of_cons in Hc as [->|Hc]; [reflexivity|]).
      inversion Hc.
    + discriminate.
    + discriminate.
    + apply hyphens_apart_no_double. vm_compute.
      repeat split; intros [H _]; discriminate H.
  - exact Hbody.
Qed.

Lemma normalize_text_Forall (Q : N -> Prop) s :
  Q 32 -> Forall Q (Py.lower s) ->
  Forall Q (StreamlitApp.normalize_text s).
Proof.
  intros Hsp Hs. unfold StreamlitApp.normalize_text.
  apply strip_Forall, sub_runs_Forall; [repeat constructor; exact Hsp|].
  eapply Forall_impl; [exact Hs|]. auto.
Qed.

(** A text without any of [a-z0-9] after normalisation has no slug of its
    own. *)
Lemma to_slug_fallback s :
  Forall (fun c => StreamlitApp.is_slug_alnum c = false) (Py.lower s) ->
  StreamlitApp.to_slug s = Py.lit "search".
Proof.
  intros Hs. unfold StreamlitApp.to_slug.
  rewrite sub_runs_all.
  - destruct (StreamlitApp.normalize_text s); reflexivity.
  - apply (normalize_text_Forall
             (fun c => negb (StreamlitApp.is_slug_alnum c) = true));
      [reflexivity|].
    eapply Forall_impl; [exact Hs|]. simpl. intros c ->. reflexivity.
Qed.

Lemma lower_ascii_no_alnum s :
  forallb Py.is_ascii s = true ->
  Forall (fun c => Spec.is_ascii_alnum c = false) s ->
  Forall (fun c => StreamlitApp.is_slug_alnum c = false) (Py.lower s).
Proof.
  intros Hascii Hs. unfold Py.lower. rewrite Hascii.
  apply Forall_fmap. eapply Forall_impl; [exact Hs|].
  intros c Hc. simpl.
  unfold Spec.is_ascii_alnum in Hc.
  apply orb_false_iff in Hc as [Hc Hd].
  apply orb_false_iff in Hc as [Hu Hl].
  unfold Py.ascii_lower. rewrite Hu.
  unfold StreamlitApp.is_slug_alnum. rewrite Hl, Hd. reflexivity.
Qed.

(** C9, amended. A slug is never empty, and it is the fixed slug "search"
    whenever the lower-cased input holds none of [a-z0-9]; this is the
    case of every ASCII input without a letter or a digit. *)
Theorem to_slug_nonempty_or_search (s : list N) :
  StreamlitApp.to_slug s <> [] /\
  (Forall (fun c => StreamlitApp.is_slug_alnum c = false) (Py.lower s) ->
   StreamlitApp.to_slug s = Py.lit "search") /\
  (forallb Py.is_ascii s = true ->
   Forall (fun c => Spec.is_ascii_alnum c = false) s ->
   StreamlitApp.to_slug s = Py.lit "search").
Proof.
  repeat split.
  - unfold StreamlitApp.to_slug. destruct (Py.strip _ _); discriminate.
  - apply to_slug_fallback.
  - intros Hascii Hs. apply to_slug_fallback, lower_ascii_no_alnum; assumption.
Qed.

End Slug.

Lemma to_slug_nonempty_or_search_witness :
  StreamlitApp.to_slug (rt := Demo.runtime) (Py.lit " ?! ") = Py.lit "search".
Proof.
  pose proof (to_slug_nonempty_or_search (rt := Demo.runtime) (Py.lit " ?! "))
    as (_ & _ & H).
  apply H.
  - vm_compute. reflexivity.
  - repeat constructor.
Defined.

(** C9 as stated fails: U+212A KELVIN SIGN is not an ASCII letter or digit,
    yet its lower-casing is the ASCII letter k, which becomes the slug. *)
Lemma to_slug_kelvin_counterexample :
  Forall (fun c => Spec.is_ascii_alnum c = false) [8490] /\
  StreamlitApp.to_slug (rt := Demo.runtime) [8490] = Py.lit "k" /\
  StreamlitApp.to_slug (rt := Demo.runtime) [8490] <> Py.lit "search".
Proof.
  split; [repeat constructor|]. split; [vm_compute; reflexivity|].
  vm_compute. discriminate.
Qed.

(** ** Reasons *)

Section Reasons.
Context {rt : Py.Runtime}.

Lemma fallback_fold_lookup category (websites : list App.site) :
  forall (acc : gmap (list N) (list N)) w,
    NoDup (App.name <$> websites) -> w ∈ websites ->
    foldl (fun reasons w =>
             <[App.name w := App.fallback_sentence category w]> reasons)
          acc websites !! App.name w
    = Some (App.fallback_sentence category w).
Proof.
  induction websites as [|x websites IH]; intros acc w Hnd Hin.
  - inversion Hin.
  - rewrite fmap_cons in Hnd. apply NoDup_cons in Hnd as [Hx Hnd]. simpl.
    apply elem_of_cons in Hin as [->|Hin]; [|apply IH; assumption].
    clear IH. revert acc.
    induction websites as [|y websites IH]; intros acc; simpl.
    + apply lookup_insert_eq.
    + rewrite fmap_cons in Hx, Hnd. apply NoDup_cons in Hnd as [_ Hnd].
      apply not_elem_of_cons in Hx as [Hxy Hx].
      rewrite insert_insert_ne by congruence. apply IH; assumption.
Qed.

Lemma fallback_fold_dom category (websites : list App.site) :
  forall (acc : gmap (list N) (list N)),
    dom (foldl (fun reasons w =>
                  <[App.name w := App.fallback_sentence category w]> reasons)
               acc websites)
    = dom acc ∪ list_to_set (App.name <$> websites).
Proof.
  induction websites as [|x websites IH]; intros acc; cbn [foldl].
  - rewrite fmap_nil, list_to_set_nil. symmetry. apply (right_id_L ∅ (∪)).
  - rewrite IH, dom_insert_L, fmap_cons, list_to_set_cons.
    rewrite (comm_L (∪) {[App.name x]} (dom acc)).
    symmetry. apply (assoc_L (∪)).
Qed.

Lemma keep_allowed_fold_lookup (allowed : gset (list N)) members k :
  forall (acc : gmap (list N) (list N)),
    foldl (fun filtered kv =>
             if bool_decide (kv.1 ∈ allowed)
             then <[kv.1 := App.py_str kv.2]> filtered
             else filtered)
          acc members !! k
    = if bool_decide (k ∈ allowed)
      then match Spec.dict_get k members with
           | Some v => Some (App.py_str v)
           | None => acc !! k
           end
      else acc !! k.
Proof.
  induction members as [|[k' v] members IH]; intros acc; simpl.
  - destruct (bool_decide (k ∈ allowed)); reflexivity.
  - rewrite IH. clear IH.
    destruct (bool_decide_reflect (k ∈ allowed)) as [Hk|Hk].
    + destruct (Spec.dict_get k members); [reflexivity|].
      destruct (bool_decide_reflect (k' = k)) as [->|Hne].
      * rewrite (bool_decide_eq_true_2 _ Hk). apply lookup_insert_eq.
      * destruct (bool_decide (k' ∈ allowed)); [|reflexivity].
        apply lookup_insert_ne. exact Hne.
    + destruct (bool_decide_reflect (k' ∈ allowed)) as [Hk'|Hk'];
        [|reflexivity].
      apply lookup_insert_ne. congruence.
Qed.

Lemma keep_allowed_lookup (allowed : gset (list N)) members k :
  App.keep_allowed allowed members !! k
  = if bool_decide (k ∈ allowed)
    then App.py_str <$> Spec.dict_get k members
    else None.
Proof.
  unfold App.keep_allowed. rewrite keep_allowed_fold_lookup.
  destruct (bool_decide (k ∈ allowed)); [|apply lookup_empty].
  destruct (Spec.dict_get k members); [reflexivity|apply lookup_empty].
Qed.

Lemma json_loads_empty : App.json_loads [] = None.
Proof. reflexivity. Qed.

(** Every failure of the batch call ends in the fallback for all sites. *)
Lemma generate_fault chain user_query category websites :
  Spec.batch_fault (chain (App.prompt_of user_query category websites)) ->
  App.generate_reasons_for_websites chain user_query category websites
  = App.build_fallback_reasons websites category user_query.
Proof.
  unfold App.generate_reasons_for_websites, Spec.batch_fault.
  destruct (chain _) as [|raw]; [reflexivity|].
  intros [->|[Hnone|(v & Hv & Hobj)]].
  - rewrite json_loads_empty. reflexivity.
  - rewrite Hnone. reflexivity.
  - rewrite Hv. destruct v; try reflexivity.
    exfalso. eapply Hobj. reflexivity.
Qed.

Lemma prompt_template_fields :
  App.format_fields App.prompt_template
  = Some [Py.lit "user_query"; Py.lit "category"; Py.lit "website_list";
          App.nl ++ Py.lit "  " ++ App.dq ++ Py.lit "Amazon India" ++ App.dq].
Proof. vm_compute. reflexivity. Qed.

(** The chain of the source never reaches the model: the braces of the
    JSON example make a fourth variable that [chain.invoke] is not given. *)
Lemma chain_of_raises llm inputs : App.chain_of llm inputs = Py.Raised.
Proof.
  unfold App.chain_of. rewrite prompt_template_fields.
  vm_compute. reflexivity.
Qed.

Lemma generate_with_chain_of llm user_query category websites :
  App.generate_reasons_for_websites (App.chain_of llm) user_query category
                                    websites
  = App.build_fallback_reasons websites category user_query.
Proof. apply generate_fault. rewrite chain_of_raises. exact I. Qed.


Lemma strip_all_space (s : list N) :
  Forall (fun c => Py.isspace c = true) s -> Py.strip Py.isspace s = [].
Proof.
  intros H. unfold Py.strip.
  assert (Py.lstrip Py.isspace s = []) as ->; [|reflexivity].
  induction H as [|c s Hc _ IH]; simpl; [reflexivity|].
  rewrite Hc. exact IH.
Qed.

(** C5. When the model call fails (it raises, or its output is empty or
    malformed), the batch generator answers what
    [build_fallback_reasons] answers on the same inputs, and the per-site
    generator what [deterministic_reason] answers; both return a value,
    the fault does not reach the caller. *)
Theorem model_fault_gives_fallback (user_query category : list N) :
  (forall chain websites,
     Spec.batch_fault (chain (App.prompt_of user_query category websites)) ->
     App.generate_reasons_for_websites chain user_query category websites
     = App.build_fallback_reasons websites category user_query) /\
  (forall llm site_name site_url,
     Spec.site_fault
       (llm (StreamlitApp.reason_prompt user_query category site_name site_url)) ->
     StreamlitApp.reason_with_llm llm user_query category site_name site_url
     = StreamlitApp.deterministic_reason site_name category user_query).
Proof.
  split.
  - intros chain websites. apply generate_fault.
  - intros llm site_name site_url. unfold StreamlitApp.reason_with_llm.
    destruct (llm _) as [|[|s|]]; simpl; try reflexivity.
    intros Hs. rewrite (strip_all_space s Hs). reflexivity.
Qed.

(** C8. Every key of the map the batch generator returns, and of the map
    the fallback returns, is the name of a site of the input list. *)
Theorem reason_keys_are_site_names chain user_query category websites k :
  (is_Some (App.generate_reasons_for_websites chain user_query category
              websites !! k) ->
   exists w, w ∈ websites /\ App.name w = k) /\
  (is_Some (App.build_fallback_reasons websites category user_query !! k) ->
   exists w, w ∈ websites /\ App.name w = k).
Proof.
  assert (forall m : gmap (list N) (list N),
             dom m ⊆ list_to_set (App.name <$> websites) ->
             is_Some (m !! k) -> exists w, w ∈ websites /\ App.name w = k)
    as Hdom.
  { intros m Hm Hk. apply elem_of_dom in Hk. apply Hm in Hk.
    apply elem_of_list_to_set, list_elem_of_fmap in Hk as (w & -> & Hw).
    exists w. split; [exact Hw|reflexivity]. }
  assert (dom (App.build_fallback_reasons websites category user_query)
          ⊆ list_to_set (App.name <$> websites)) as Hfb.
  { unfold App.build_fallback_reasons.
    rewrite fallback_fold_dom, dom_empty_L, (left_id_L ∅ (∪)). reflexivity. }
  split; apply Hdom; [|exact Hfb].
  unfold App.generate_reasons_for_websites.
  destruct (chain _) as [|raw]; [exact Hfb|].
  destruct (App.json_loads raw) as [[| | | | |members]|]; try exact Hfb.
  intros x Hx. apply elem_of_dom in Hx as [v Hx].
  rewrite keep_allowed_lookup in Hx.
  destruct (bool_decide_reflect
              (x ∈ (list_to_set (App.name <$> websites) : gset (list N))))
    as [Hin|Hin]; [exact Hin|discriminate].
Qed.

End Reasons.

Lemma model_fault_gives_fallback_witness :
  App.generate_reasons_for_websites (rt := Demo.runtime)
    (fun _ => Py.Returned (Py.lit "Sorry, I cannot help."))
    (Py.lit "laptop") (Py.lit "electronics") [Demo.amazon; Demo.flipkart]
  = App.build_fallback_reasons [Demo.amazon; Demo.flipkart]
      (Py.lit "electronics") (Py.lit "laptop") /\
  StreamlitApp.reason_with_llm (rt := Demo.runtime)
    (fun _ => Py.Returned (StreamlitApp.ContentStr (Py.lit "  ")))
    (Py.lit "laptop") (Py.lit "electronics") (Py.lit "Croma")
    (Py.lit "https://www.croma.com")
  = StreamlitApp.deterministic_reason (rt := Demo.runtime)
      (Py.lit "Croma") (Py.lit "electronics") (Py.lit "laptop").
Proof.
  pose proof (model_fault_gives_fallback (rt := Demo.runtime)
                (Py.lit "laptop") (Py.lit "electronics")) as [Hb Hs].
  split.
  - apply Hb. simpl. right. left. vm_compute. reflexivity.
  - apply Hs. simpl. repeat constructor.
Defined.

Lemma reason_keys_are_site_names_witness :
  exists w, w ∈ [Demo.amazon; Demo.flipkart] /\
            App.name w = Py.lit "Amazon India".
Proof.
  apply (reason_keys_are_site_names (rt := Demo.runtime)
           (fun _ => Py.Returned Demo.partial_doc)
           (Py.lit "laptop") (Py.lit "electronics")
           [Demo.amazon; Demo.flipkart] (Py.lit "Amazon India")).
  vm_compute. eexists. reflexivity.
Defined.

(** ** The budget hint and the two fallback sentences *)

Section Budget.
Context {rt : Py.Runtime}.

Lemma after_prefix_Some m s rest :
  Py.after_prefix m s = Some rest <-> s = m ++ rest.
Proof.
  revert s. induction m as [|a m IH]; intros s; simpl.
  - split; [intros [= ->]; reflexivity|intros ->; reflexivity].
  - destruct s as [|b s]; [split; discriminate|].
    destruct (N.eqb_spec a b) as [->|Hab].
    + rewrite IH. split; [intros ->; reflexivity|intros [= ->]; reflexivity].
    + split; [discriminate|intros [= <- _]; contradiction].
Qed.

Lemma spaces_then_digit_true s :
  StreamlitApp.spaces_then_digit s = true <->
  exists spaces d post,
    s = spaces ++ d :: post /\
    Forall (fun c => Py.isspace c = true) spaces /\ Py.isdigit d = true.
Proof.
  split.
  - induction s as [|c s IH]; simpl; [discriminate|].
    intros H. apply orb_true_iff in H as [Hd|H].
    + exists [], c, s. repeat split; [constructor|exact Hd].
    + apply andb_true_iff in H as [Hc H].
      destruct (IH H) as (spaces & d & post & -> & Hsp & Hd).
      exists (c :: spaces), d, post. repeat split; [|exact Hd].
      constructor; assumption.
  - intros (spaces & d & post & -> & Hsp & Hd).
    induction Hsp as [|c spaces Hc _ IH]; simpl.
    + rewrite Hd. reflexivity.
    + rewrite Hc, IH. apply orb_true_r.
Qed.

Lemma budget_here_true s :
  StreamlitApp.budget_here s = true <->
  exists marker spaces d post,
    s = marker ++ spaces ++ d :: post /\
    marker ∈ StreamlitApp.budget_markers /\
    Forall (fun c => Py.isspace c = true) spaces /\ Py.isdigit d = true.
Proof.
  unfold StreamlitApp.budget_here. rewrite existsb_exists. split.
  - intros (m & Hm & H). apply list_elem_of_In in Hm.
    destruct (Py.after_prefix m s) as [rest|] eqn:Hrest; [|discriminate].
    apply after_prefix_Some in Hrest. simpl in H.
    apply spaces_then_digit_true in H as (spaces & d & post & -> & Hsp & Hd).
    exists m, spaces, d, post. auto.
  - intros (m & spaces & d & post & -> & Hm & Hsp & Hd).
    exists m. split; [apply list_elem_of_In, Hm|].
    rewrite (proj2 (after_prefix_Some m _ (spaces ++ d :: post)) eq_refl).
    simpl. apply spaces_then_digit_true. eauto 6.
Qed.

(** The search finds a budget token exactly when the text holds one. *)
Lemma budget_search_true s :
  StreamlitApp.budget_search s = true <-> Spec.has_budget_token s.
Proof.
  unfold Spec.has_budget_token. split.
  - induction s as [|c s IH].
    + cbn [StreamlitApp.budget_search]. rewrite orb_false_r. intros H.
      apply budget_here_true in H as (m & sp & d & post & Hs & H).
      exists [], m, sp, d, post. split; [exact Hs|exact H].
    + cbn [StreamlitApp.budget_search]. intros H.
      apply orb_true_iff in H as [H|H].
      * apply budget_here_true in H as (m & sp & d & post & Hs & H).
        exists [], m, sp, d, post. split; [exact Hs|exact H].
      * destruct (IH H) as (pre & m & sp & d & post & -> & Hrest).
        exists (c :: pre), m, sp, d, post. split; [reflexivity|exact Hrest].
  - intros (pre & m & sp & d & post & -> & Hrest).
    induction pre as [|c pre IH].
    + assert (StreamlitApp.budget_here (m ++ sp ++ d :: post) = true) as Hh.
      { apply budget_here_true. exists m, sp, d, post. auto. }
      simpl app. destruct (m ++ sp ++ d :: post);
        cbn [StreamlitApp.budget_search]; rewrite Hh; reflexivity.
    + simpl app. cbn [StreamlitApp.budget_search]. rewrite IH.
      apply orb_true_r.
Qed.

Lemma join_take_two (strengths : list (list N)) :
  Py.join (Py.lit ", ") (take 2 strengths)
  = match strengths with
    | a :: b :: _ => a ++ Py.lit ", " ++ b
    | [a] => a
    | [] => []
    end.
Proof. destruct strengths as [|a [|b rest]]; reflexivity. Qed.

Lemma fallback_sentence_spelled category w :
  App.fallback_sentence category w
  = Py.lit "Great for " ++ category ++ Py.lit "; known for " ++
    Spec.strength_tip w ++ Py.lit ".".
Proof.
  unfold App.fallback_sentence, Spec.strength_tip.
  destruct (App.strengths w) as [[|a [|b rest]]|]; reflexivity.
Qed.

(** C2, amended. The two applications build different fallback sentences.
    The batch application stores, for every site of a list with distinct
    names, "Great for <category>; known for <tip>." where the tip is made
    of the first two declared strengths, and appends no budget hint.  The
    per-site application builds its sentence from the site name and the
    category, without the strengths, and appends the budget hint exactly
    when the normalised query holds a budget marker, then any white space,
    then a digit. *)
Theorem fallback_sentences (category query : list N) :
  (forall websites w,
     NoDup (App.name <$> websites) -> w ∈ websites ->
     App.build_fallback_reasons websites category query !! App.name w
     = Some (Py.lit "Great for " ++ category ++ Py.lit "; known for " ++
             Spec.strength_tip w ++ Py.lit ".")) /\
  (forall site_name,
     StreamlitApp.deterministic_reason site_name category query
     = StreamlitApp.base_sentence site_name category ++
       (if StreamlitApp.budget_present query
        then StreamlitApp.budget_hint else [])) /\
  (StreamlitApp.budget_present query = true <->
   Spec.has_budget_token (StreamlitApp.normalize_text query)).
Proof.
  repeat split.
  - intros websites w Hnd Hw. unfold App.build_fallback_reasons.
    rewrite fallback_fold_lookup by assumption.
    rewrite fallback_sentence_spelled. reflexivity.
  - intros site_name. unfold StreamlitApp.deterministic_reason.
    destruct (StreamlitApp.budget_present query);
      [reflexivity|rewrite app_nil_r; reflexivity].
  - apply budget_search_true.
  - apply budget_search_true.
Qed.

End Budget.

Lemma fallback_sentences_witness :
  App.build_fallback_reasons [Demo.amazon; Demo.flipkart]
    (Py.lit "electronics") (Py.lit "laptop under 50000")
    !! App.name Demo.amazon
  = Some (Py.lit "Great for electronics; known for fast delivery, wide selection.").
Proof.
  pose proof (fallback_sentences (rt := Demo.runtime)
                (Py.lit "electronics") (Py.lit "laptop under 50000"))
    as (H & _).
  rewrite (H [Demo.amazon; Demo.flipkart] Demo.amazon).
  - vm_compute. reflexivity.
  - apply (bool_decide_unpack _). vm_compute. exact I.
  - left.
Defined.

(** C2 as stated fails in both applications.  On a query with a budget
    token the batch fallback appends no hint; the per-site sentence does
    not mention the strengths of the site. *)
Lemma fallback_reason_counterexample :
  let query := Py.lit "laptop under 50000" in
  let category := Py.lit "electronics" in
  StreamlitApp.budget_present (rt := Demo.runtime) query = true /\
  App.build_fallback_reasons [Demo.amazon] category query
    !! App.name Demo.amazon
  <> Some (Spec.claimed_reason (rt := Demo.runtime) Demo.amazon category query) /\
  StreamlitApp.deterministic_reason (rt := Demo.runtime)
    (App.name Demo.amazon) category query
  <> Spec.claimed_reason (rt := Demo.runtime) Demo.amazon category query.
Proof.
  cbv zeta. split; [vm_compute; reflexivity|].
  split; vm_compute; discriminate.
Qed.

(** ** Deep links *)

Section Links.
Context {rt : Py.Runtime}.


End Links.



(** ** The scenarios of the specification, evaluated *)

Example scenario_detect_electronics :
  App.detect_category (rt := Demo.runtime)
    (Py.lit "I want to buy a laptop under " ++ [8377] ++ Py.lit "50,000")
    [(Py.lit "electronics", [Py.lit "laptop"; Py.lit "mobile"])]
  = Some (Py.lit "electronics").
Proof. vm_compute. reflexivity. Qed.

(** The pattern of [budget_present] spells the currency sign as the three
    characters of [currency_sign], so U+20B9 alone is no marker; the word
    "under" is one when a digit follows it. *)
Example scenario_budget_tokens :
  StreamlitApp.budget_present (rt := Demo.runtime)
    (Py.lit "I want to buy a laptop under " ++ [8377] ++ Py.lit "50,000")
  = false /\
  StreamlitApp.budget_present (rt := Demo.runtime)
    (Py.lit "I want to buy a laptop UNDER 50,000") = true /\
  StreamlitApp.budget_present (rt := Demo.runtime)
    (Py.lit "a phone for Rs. 2000") = true.
Proof. vm_compute. auto. Qed.

Example scenario_no_category :
  App.detect_category (rt := Demo.runtime) (Py.lit "running shoes")
    [(Py.lit "electronics", [Py.lit "laptop"; Py.lit "mobile"])] = None.
Proof. vm_compute. reflexivity. Qed.

Example scenario_deterministic_reason :
  StreamlitApp.deterministic_reason (rt := Demo.runtime)
    (Py.lit "Amazon India") (Py.lit "electronics") (Py.lit "a gaming laptop")
  = Py.lit "Amazon India offers a strong range of electronics with specs filters, trusted warranties, and quick delivery options.".
Proof. vm_compute. reflexivity. Qed.

Example scenario_myntra_link :
  StreamlitApp.build_deep_link (rt := Demo.runtime)
    (Py.lit "Myntra") (Py.lit "https://www.myntra.com")
    (Py.lit "Blue  cotton shirt") (Py.lit "fashion")
  = Some (Py.lit "https://www.myntra.com/blue-cotton-shirt?rawQuery=blue%20cotton%20shirt&p=1").
Proof. vm_compute. reflexivity. Qed.

(** Word matching against substring matching: "cat" is inside "category"
    but is no word of it. *)
Example word_boundary_example :
  App.detect_category (rt := Demo.runtime) (Py.lit "category")
    [(Py.lit "pets", [Py.lit "cat"])] = Some (Py.lit "pets") /\
  StreamlitApp.extract_category (rt := Demo.runtime) (Py.lit "category")
    [(Py.lit "pets", {| StreamlitApp.keywords := Some [Py.lit "cat"] |})]
  = None.
Proof. vm_compute. auto. Qed.

(** ** More on the selection loop *)

Section BestCategoryMore.
Context {V : Type} (score : V -> nat).
Implicit Types (st : option (list N) * nat) (table : list (list N * V)).

(** The state after the scan: its score bounds every score seen, and it
    is the initial state or the record of an item that beat it. *)
Lemma scan_result table : forall st,
  let final := foldl (Py.pick score) st table in
  (st.2 <= final.2)%nat /\
  Forall (fun item => (score item.2 <= final.2)%nat) table /\
  (final = st \/
   exists item, item ∈ table /\ final = (Some item.1, score item.2) /\
                (st.2 < score item.2)%nat).
Proof.
  induction table as [|item table IH]; intros st; cbn [foldl].
  - cbv zeta. split; [lia|]. split; [constructor|left; reflexivity].
  - specialize (IH (Py.pick score st item)). cbv zeta in *.
    destruct IH as (Hle & Hall & Hfinal).
    assert ((st.2 <= (Py.pick score st item).2)%nat /\
            (score item.2 <= (Py.pick score st item).2)%nat) as [Hst Hit].
    { unfold Py.pick. destruct (Nat.ltb_spec st.2 (score item.2)); simpl; lia. }
    split; [lia|]. split; [constructor; [lia|exact Hall]|].
    destruct Hfinal as [Hfinal|(it & Hin & Hfinal & Hlt)].
    + rewrite Hfinal. unfold Py.pick.
      destruct (Nat.ltb_spec st.2 (score item.2)); [|left; reflexivity].
      right. exists item. split; [left|]. split; [reflexivity|assumption].
    + right. exists it. split; [right; exact Hin|]. split; [exact Hfinal|lia].
Qed.

Lemma best_category_Some table c :
  Py.best_category score table = Some c ->
  exists v, (c, v) ∈ table /\ (0 < score v)%nat /\
            Forall (fun item => (score item.2 <= score v)%nat) table.
Proof.
  unfold Py.best_category.
  destruct (scan_result table (None, 0%nat)) as (_ & Hall & Hfinal).
  cbv zeta in *.
  destruct Hfinal as [Heq|([k v] & Hin & Heq & Hlt)];
    rewrite Heq in *; simpl in *.
  - discriminate.
  - destruct (Nat.ltb_spec 0 (score v)); [|lia].
    intros [= <-]. exists v. split; [exact Hin|]. split; [assumption|].
    exact Hall.
Qed.

Lemma best_category_None table :
  Py.best_category score table = None <->
  Forall (fun item => score item.2 = 0%nat) table.
Proof.
  split; [|apply best_category_no_match].
  unfold Py.best_category.
  destruct (scan_result table (None, 0%nat)) as (_ & Hall & Hfinal).
  cbv zeta in *.
  destruct Hfinal as [Heq|([k v] & Hin & Heq & Hlt)];
    rewrite Heq in *; simpl in *.
  - intros _. eapply Forall_impl; [exact Hall|]. simpl. lia.
  - destruct (Nat.ltb_spec 0 (score v)); [discriminate|lia].
Qed.

End BestCategoryMore.

Section DetectionMore.
Context {rt : Py.Runtime}.

(** X1. A category a detector answers is a category of the table, with
    at least one matching keyword and with a score no other category
    exceeds. *)
Theorem detected_category_is_best (query c : list N) :
  (forall table,
     App.detect_category query table = Some c ->
     exists kws, (c, kws) ∈ table /\
       (0 < App.keyword_hits (Py.lower query) kws)%nat /\
       Forall (fun item => (App.keyword_hits (Py.lower query) item.2
                            <= App.keyword_hits (Py.lower query) kws)%nat)
              table) /\
  (forall table,
     StreamlitApp.extract_category query table = Some c ->
     let q := StreamlitApp.normalize_text query in
     exists cfg, (c, cfg) ∈ table /\
       (0 < StreamlitApp.keyword_hits q cfg)%nat /\
       Forall (fun item => (StreamlitApp.keyword_hits q item.2
                            <= StreamlitApp.keyword_hits q cfg)%nat) table).
Proof.
  split; intros table H; apply best_category_Some in H; exact H.
Qed.

(** X2. A detector answers [None] exactly when no keyword of the table
    matches the query: one matching keyword is enough to get a category. *)
Theorem detect_none_iff_no_match (query : list N) :
  (forall table,
     App.detect_category query table = None <->
     Forall (fun item => App.keyword_hits (Py.lower query) item.2 = 0%nat)
            table) /\
  (forall table,
     StreamlitApp.extract_category query table = None <->
     Forall (fun item =>
               StreamlitApp.keyword_hits (StreamlitApp.normalize_text query)
                                         item.2 = 0%nat) table).
Proof. split; intros table; apply best_category_None. Qed.

Lemma after_prefix_startswith kw s rest :
  Py.after_prefix kw s = Some rest -> Py.startswith kw s = true.
Proof.
  revert s. induction kw as [|a kw IH]; intros [|b s]; simpl; try done.
  destruct (a =? b); [apply IH|discriminate].
Qed.

Lemma search_word_contains kw s : forall prev,
  StreamlitApp.search_word kw prev s = true -> Py.contains kw s = true.
Proof.
  induction s as [|c s IH]; intros prev;
    cbn [StreamlitApp.search_word Py.contains]; intros H;
    apply orb_true_iff in H as [H|H]; apply orb_true_iff.
  - left. unfold StreamlitApp.word_here in H.
    apply andb_true_iff in H as [_ H].
    destruct (Py.after_prefix kw []) eqn:Hp; [|discriminate].
    eapply after_prefix_startswith, Hp.
  - discriminate.
  - left. unfold StreamlitApp.word_here in H.
    apply andb_true_iff in H as [_ H].
    destruct (Py.after_prefix kw (c :: s)) eqn:Hp; [|discriminate].
    eapply after_prefix_startswith, Hp.
  - right. eapply IH, H.
Qed.

(** X3. Matching whole words is stricter than matching substrings: on
    the same text, a keyword found as a word is found as a substring, so
    the word score of a category never exceeds its substring score. *)
Theorem word_hits_le_substring_hits (text : list N)
    (cfg : StreamlitApp.category_cfg) :
  (forall kw, StreamlitApp.search_word kw None text = true ->
              Py.contains kw text = true) /\
  (StreamlitApp.keyword_hits text cfg
   <= App.keyword_hits text (default [] (StreamlitApp.keywords cfg)))%nat.
Proof.
  split; [intros kw; apply search_word_contains|].
  unfold StreamlitApp.keyword_hits, App.keyword_hits, Py.count_if.
  induction (default [] (StreamlitApp.keywords cfg)) as [|kw kws IH];
    simpl; [lia|].
  destruct (StreamlitApp.search_word (Py.lower kw) None text) eqn:Hw.
  - rewrite (search_word_contains _ _ _ Hw). simpl. lia.
  - destruct (Py.contains (Py.lower kw) text); simpl; lia.
Qed.

End DetectionMore.

Lemma detected_category_is_best_witness :
  exists kws, (Py.lit "electronics", kws) ∈ DemoTables.categories_map /\
    (0 < App.keyword_hits (rt := Demo.runtime)
           (Py.lower (rt := Demo.runtime) DemoTables.query) kws)%nat.
Proof.
  pose proof (detected_category_is_best (rt := Demo.runtime)
                DemoTables.query (Py.lit "electronics")) as [H _].
  destruct (H DemoTables.categories_map) as (kws & Hin & Hpos & _).
  - vm_compute. reflexivity.
  - exists kws. split; assumption.
Defined.

Lemma detect_none_iff_no_match_witness :
  App.detect_category (rt := Demo.runtime) (Py.lit "running shorts")
    DemoTables.categories_map = None.
Proof.
  pose proof (detect_none_iff_no_match (rt := Demo.runtime)
                (Py.lit "running shorts")) as [H _].
  apply H. repeat constructor.
Defined.

Lemma word_hits_le_substring_hits_witness :
  Py.contains (Py.lit "cat") (Py.lit "a cat, please") = true.
Proof.
  pose proof (word_hits_le_substring_hits (rt := Demo.runtime)
                (Py.lit "a cat, please")
                {| StreamlitApp.keywords := None |}) as [H _].
  apply H. vm_compute. reflexivity.
Defined.

(** ** The shape of normalised text, and slugs of slugs *)

Section Apart.
Implicit Types (p : N -> bool) (s : list N).

Lemma apart_tail p a s : Props.apart p (a :: s) -> Props.apart p s.
Proof. destruct s; simpl; tauto. Qed.

Lemma apart_never_adjacent p s :
  Props.apart p s -> Props.never_adjacent p s.
Proof.
  intros H l1. revert s H.
  induction l1 as [|x l1 IH]; intros s H a b l2 ->.
  - simpl in H. tauto.
  - apply (IH _ (apart_tail _ _ _ H) a b l2). reflexivity.
Qed.

Lemma apart_cons p a s :
  from_option p false (head s) = false -> Props.apart p s ->
  Props.apart p (a :: s).
Proof.
  destruct s as [|b s]; simpl; [tauto|].
  intros Hb H. split; [|exact H]. intros [_ Hpb]. congruence.
Qed.

Lemma apart_cons_other p a s :
  p a = false -> Props.apart p s -> Props.apart p (a :: s).
Proof.
  destruct s as [|b s]; simpl; [tauto|].
  intros Ha H. split; [|exact H]. intros [Hpa _]. congruence.
Qed.

(** Runs replaced by one character of the class leave the characters of
    the class apart; inside a run nothing of the class is emitted. *)
Lemma sub_runs_apart p r s : p r = true -> forall in_run,
  Props.apart p (Py.sub_runs p [r] in_run s) /\
  (in_run = true ->
   from_option p false (head (Py.sub_runs p [r] in_run s)) = false).
Proof.
  intros Hr. induction s as [|c s IH]; intros in_run; cbn [Py.sub_runs].
  - split; [exact I|reflexivity].
  - destruct (p c) eqn:Hc.
    + destruct (IH true) as [Hap Hhd]. destruct in_run; simpl app.
      * split; [exact Hap|intros _; apply Hhd; reflexivity].
      * split; [|discriminate].
        apply apart_cons; [apply Hhd; reflexivity|exact Hap].
    + destruct (IH false) as [Hap _]. split.
      * apply apart_cons_other; assumption.
      * intros _. exact Hc.
Qed.

Lemma strip_never_adjacent p q s :
  Props.never_adjacent q s -> Props.never_adjacent q (Py.strip p s).
Proof.
  intros H l1 a b l2 Heq. destruct (strip_infix p s) as (l & r & Hs).
  apply (H (l ++ l1) a b (l2 ++ r)). rewrite Hs, Heq.
  rewrite <- !app_assoc. reflexivity.
Qed.

Lemma strip_ends p s :
  from_option p false (head (Py.strip p s)) = false /\
  from_option p false (last (Py.strip p s)) = false.
Proof.
  split.
  - destruct (head (Py.strip p s)) as [c|] eqn:Hc; [|reflexivity].
    exact (strip_head p s c Hc).
  - destruct (last (Py.strip p s)) as [c|] eqn:Hc; [|reflexivity].
    exact (strip_last p s c Hc).
Qed.

(** Stripping a text whose ends are outside the class changes nothing. *)
Lemma strip_id p s :
  from_option p false (head s) = false ->
  from_option p false (last s) = false ->
  Py.strip p s = s.
Proof.
  intros Hh Hl. unfold Py.strip, Py.rstrip.
  assert (forall t, from_option p false (head t) = false ->
                    Py.lstrip p t = t) as Hid.
  { intros [|c t]; simpl; [reflexivity|]. intros ->. reflexivity. }
  rewrite (Hid s Hh), Hid; [apply reverse_involutive|].
  rewrite head_reverse. exact Hl.
Qed.

Lemma sub_runs_none p rep s : forall in_run,
  Forall (fun c => p c = false) s -> Py.sub_runs p rep in_run s = s.
Proof.
  induction s as [|c s IH]; intros in_run Hs; simpl; [reflexivity|].
  inversion Hs as [|? ? Hc Hrest]; subst. rewrite Hc, IH by assumption.
  reflexivity.
Qed.

End Apart.

Section TextShape.
Context {rt : Py.Runtime}.

(** X4. Normalised text neither starts nor ends with white space, its
    only white space character is the space, and no two spaces are
    neighbours. *)
Theorem normalize_text_shape (s : list N) :
  let t := StreamlitApp.normalize_text s in
  from_option Py.isspace false (head t) = false /\
  from_option Py.isspace false (last t) = false /\
  Forall (fun c => Py.isspace c = true -> c = 32) t /\
  Props.never_adjacent Py.isspace t.
Proof.
  cbv zeta. unfold StreamlitApp.normalize_text.
  split; [apply strip_ends|]. split; [apply strip_ends|]. split.
  - apply strip_Forall, sub_runs_Forall.
    + repeat constructor.
    + apply Forall_forall. intros c _ Hc Hsp. congruence.
  - apply strip_never_adjacent, apart_never_adjacent.
    apply (sub_runs_apart Py.isspace 32 _ eq_refl false).
Qed.

Lemma no_double_hyphen_apart (s : list N) :
  Spec.no_double_hyphen s -> Spec.hyphens_apart s.
Proof.
  induction s as [|a [|b s] IH]; intros H; simpl; try exact I.
  split.
  - intros [-> ->]. apply (H [] s). reflexivity.
  - apply IH. intros l1 l2 Heq. apply (H (a :: l1) l2).
    simpl. rewrite Heq. reflexivity.
Qed.

Lemma slug_char_facts c :
  Spec.slug_char c = true ->
  Py.is_ascii c = true /\ Py.ascii_lower c = c /\ Py.isspace c = false /\
  (StreamlitApp.is_slug_alnum c = true \/ c = 45).
Proof.
  unfold Spec.slug_char, Py.isspace, Py.ascii_lower, Py.is_ascii,
    StreamlitApp.is_slug_alnum, Py.is_upper_az, Py.is_lower_az,
    Py.is_digit_09, Py.between.
  intros H.
  assert (c < 128) as Hlt.
  { destruct (N.leb_spec c 122); destruct (N.leb_spec c 57);
      destruct (N.eqb_spec c 45); simpl in H;
      rewrite ?andb_false_r in H; simpl in H; try discriminate; lia. }
  apply N.ltb_lt in Hlt as Hasc. rewrite Hasc.
  destruct (N.leb_spec 97 c); destruct (N.leb_spec c 122);
    destruct (N.leb_spec 48 c); destruct (N.leb_spec c 57);
    destruct (N.eqb_spec c 45); simpl in H; try discriminate;
    destruct (N.leb_spec 65 c); destruct (N.leb_spec c 90);
    destruct (N.leb_spec 9 c); destruct (N.leb_spec c 13);
    destruct (N.leb_spec 28 c); destruct (N.leb_spec c 32);
    simpl; try lia; auto.
Qed.

Lemma sub_runs_slug (r : list N) : forall in_run,
  Forall (fun c => Spec.slug_char c = true) r ->
  Spec.hyphens_apart r ->
  (in_run = true -> head r <> Some 45) ->
  Py.sub_runs (fun c => negb (StreamlitApp.is_slug_alnum c)) (Py.lit "-")
              in_run r = r.
Proof.
  induction r as [|c r IH]; intros in_run Hall Hap Hrun; [reflexivity|].
  inversion Hall as [|? ? Hc Hrest]; subst. cbn [Py.sub_runs].
  destruct (slug_char_facts c Hc) as (_ & _ & _ & [Hal| ->]).
  - rewrite Hal. simpl negb. cbv iota. f_equal.
    apply IH; [exact Hrest|exact (hyphens_apart_tail _ _ Hap)|discriminate].
  - destruct in_run; [exfalso; apply Hrun; reflexivity|].
    change (negb (StreamlitApp.is_slug_alnum 45)) with true. cbv iota.
    change (Py.lit "-") with [45]. simpl app. f_equal.
    apply IH; [exact Hrest|exact (hyphens_apart_tail _ _ Hap)|].
    intros _. destruct r as [|d r]; [discriminate|].
    simpl in Hap. intros [= ->]. tauto.
Qed.

Lemma sub_repeats_slug (r : list N) :
  Spec.hyphens_apart r -> Py.sub_repeats 45 (Py.lit "-") false r = r.
Proof.
  induction r as [|x r IH]; intros Hap; [reflexivity|].
  cbn [Py.sub_repeats].
  pose proof (IH (hyphens_apart_tail _ _ Hap)) as IH'.
  destruct (N.eqb_spec x 45) as [->|Hx]; [|rewrite IH'; reflexivity].
  destruct r as [|y r]; [reflexivity|].
  destruct (N.eqb_spec y 45) as [->|Hy]; [simpl in Hap; tauto|].
  rewrite IH'. reflexivity.
Qed.

Lemma lower_of_slug (r : list N) :
  Forall (fun c => Spec.slug_char c = true) r -> Py.lower r = r.
Proof.
  intros Hall. unfold Py.lower.
  assert (forallb Py.is_ascii r = true) as ->.
  { apply forallb_forall. intros c Hc%list_elem_of_In.
    apply (slug_char_facts c), (proj1 (Forall_forall _ _) Hall c Hc). }
  induction Hall as [|c r Hc _ IH]; [reflexivity|].
  rewrite fmap_cons, IH. f_equal. apply (slug_char_facts c Hc).
Qed.

(** A well-formed slug is its own slug. *)
Lemma to_slug_of_slug (r : list N) :
  r <> [] ->
  Forall (fun c => Spec.slug_char c = true) r ->
  head r <> Some 45 -> last r <> Some 45 ->
  Spec.no_double_hyphen r ->
  StreamlitApp.to_slug r = r.
Proof.
  intros Hne Hall Hhead Hlast Hnd.
  pose proof (no_double_hyphen_apart r Hnd) as Hap.
  assert (forall o : option N,
             (forall c, o = Some c -> c ∈ r) ->
             from_option Py.isspace false o = false) as Hsp.
  { intros [c|] Ho; [|reflexivity]. simpl.
    pose proof (proj1 (Forall_forall _ _) Hall c (Ho c eq_refl)) as Hc.
    apply (slug_char_facts c Hc). }
  assert (forall o : option N, o <> Some 45 ->
             from_option StreamlitApp.is_hyphen false o = false) as Hhy.
  { intros [c|] Ho; [|reflexivity]. simpl. unfold StreamlitApp.is_hyphen.
    apply N.eqb_neq. congruence. }
  assert (StreamlitApp.normalize_text r = r) as Hnorm.
  { unfold StreamlitApp.normalize_text.
    rewrite (lower_of_slug r Hall), sub_runs_none.
    - apply strip_id; apply Hsp.
      + intros c Hc. apply head_Some_elem_of, Hc.
      + intros c Hc. apply last_Some_elem_of, Hc.
    - eapply Forall_impl; [exact Hall|]. intros c Hc.
      apply (slug_char_facts c Hc). }
  unfold StreamlitApp.to_slug. rewrite Hnorm.
  rewrite sub_runs_slug by (assumption || discriminate).
  rewrite sub_repeats_slug by assumption.
  rewrite strip_id by (apply Hhy; assumption).
  destruct r; [contradiction|reflexivity].
Qed.

(** X5. Building the slug of a slug changes nothing. *)
Theorem to_slug_idempotent (s : list N) :
  StreamlitApp.to_slug (StreamlitApp.to_slug s) = StreamlitApp.to_slug s.
Proof.
  pose proof (slug_body_shape (StreamlitApp.normalize_text s)) as Hbody.
  cbv zeta in Hbody. unfold StreamlitApp.to_slug at 2 3.
  destruct (Py.strip _ _) as [|c body] eqn:Hs3.
  - vm_compute. reflexivity.
  - destruct Hbody as (Hall & Hhead & Hlast & Hnd).
    apply to_slug_of_slug; [discriminate|assumption..].
Qed.

End TextShape.

(** ** More on the reasons *)

Section ReasonsMore.
Context {rt : Py.Runtime}.

Lemma fallback_fold_last category (websites : list App.site) k :
  forall (acc : gmap (list N) (list N)),
    foldl (fun reasons w =>
             <[App.name w := App.fallback_sentence category w]> reasons)
          acc websites !! k
    = match Props.last_named k websites with
      | Some w => Some (App.fallback_sentence category w)
      | None => acc !! k
      end.
Proof.
  induction websites as [|x websites IH]; intros acc; [reflexivity|].
  cbn [foldl Props.last_named]. rewrite IH.
  destruct (Props.last_named k websites); [reflexivity|].
  destruct (bool_decide_reflect (App.name x = k)) as [<-|Hne].
  - apply lookup_insert_eq.
  - apply lookup_insert_ne, Hne.
Qed.

Lemma last_named_name k (websites : list App.site) w :
  Props.last_named k websites = Some w -> w ∈ websites /\ App.name w = k.
Proof.
  induction websites as [|x websites IH]; [discriminate|].
  cbn [Props.last_named].
  destruct (Props.last_named k websites) as [w'|].
  - intros [= <-]. destruct (IH eq_refl) as [Hin Hk].
    split; [right; exact Hin|exact Hk].
  - destruct (bool_decide_reflect (App.name x = k)) as [Hk|Hk];
      [|discriminate].
    intros [= <-]. split; [left|exact Hk].
Qed.

Lemma last_named_Some k (websites : list App.site) w :
  w ∈ websites -> App.name w = k -> is_Some (Props.last_named k websites).
Proof.
  induction websites as [|x websites IH]; intros Hin Hk; [inversion Hin|].
  cbn [Props.last_named].
  destruct (Props.last_named k websites) as [w'|]; [eauto|].
  apply elem_of_cons in Hin as [->|Hin].
  - rewrite bool_decide_eq_true_2 by exact Hk. eauto.
  - destruct (IH Hin Hk) as [w' [=]].
Qed.

(** X6. The fallback map has a sentence for every site of the list; when
    several sites carry one name, the sentence of the last of them is the
    one kept. *)
Theorem fallback_covers_every_site
    (websites : list App.site) (category user_query : list N) :
  (forall k,
     App.build_fallback_reasons websites category user_query !! k
     = App.fallback_sentence category <$> Props.last_named k websites) /\
  (forall w, w ∈ websites ->
     is_Some (App.build_fallback_reasons websites category user_query
                !! App.name w)).
Proof.
  assert (forall k,
     App.build_fallback_reasons websites category user_query !! k
     = App.fallback_sentence category <$> Props.last_named k websites) as H.
  { intros k. unfold App.build_fallback_reasons.
    rewrite fallback_fold_last.
    destruct (Props.last_named k websites); [reflexivity|apply lookup_empty]. }
  split; [exact H|]. intros w Hw. rewrite H.
  destruct (last_named_Some (App.name w) websites w Hw eq_refl) as [w' ->].
  eexists. reflexivity.
Qed.

Lemma last_app_end (l1 l2 : list N) y :
  last l2 = Some y -> last (l1 ++ l2) = Some y.
Proof. intros H. rewrite last_app, H. reflexivity. Qed.

(** X7. Every reason ends with a full stop: the sentence of the batch
    fallback, the deterministic sentence with or without the budget hint,
    and whatever the per-site generator returns, for any reply of the
    model. *)
Theorem reasons_end_with_full_stop :
  (forall category w, last (App.fallback_sentence category w) = Some 46) /\
  (forall site_name category query,
     last (StreamlitApp.deterministic_reason site_name category query)
     = Some 46) /\
  (forall llm query category site_name site_url,
     last (StreamlitApp.reason_with_llm llm query category site_name site_url)
     = Some 46).
Proof.
  assert (forall site_name category query,
     last (StreamlitApp.deterministic_reason site_name category query)
     = Some 46) as Hdet.
  { intros site_name category query.
    unfold StreamlitApp.deterministic_reason.
    destruct (StreamlitApp.budget_present query);
      [apply last_app_end; vm_compute; reflexivity|].
    unfold StreamlitApp.base_sentence.
    repeat case_bool_decide;
      repeat (apply last_app_end); vm_compute; reflexivity. }
  split; [|split; [exact Hdet|]].
  - intros category w. unfold App.fallback_sentence.
    repeat (apply last_app_end). reflexivity.
  - intros llm query category site_name site_url.
    unfold StreamlitApp.reason_with_llm.
    destruct (llm _) as [|[|s|]]; try apply Hdet.
    destruct (Py.strip Py.isspace s); [apply Hdet|].
    apply last_app_end. reflexivity.
Qed.

Lemma first_piece_prefix text :
  exists rest, text = StreamlitApp.first_piece text ++ rest.
Proof.
  induction text as [|c text [rest IH]]; simpl; [exists []; reflexivity|].
  destruct ((c =? 46) || (c =? 33) || (c =? 63)).
  - exists (c :: text). reflexivity.
  - exists rest. simpl. congruence.
Qed.

Lemma first_piece_no_stop text :
  Forall (fun c => Props.is_stop c = false) (StreamlitApp.first_piece text).
Proof.
  induction text as [|c text IH]; simpl; [constructor|].
  destruct ((c =? 46) || (c =? 33) || (c =? 63)) eqn:Hc; constructor;
    assumption.
Qed.

(** X8. When the model returns a text that is not blank, the reason is a
    piece of that text taken as it is, without white space at its ends
    and without any of the characters . ! ?, followed by a full stop. *)
Theorem model_reason_is_one_sentence llm query category site_name site_url s :
  llm (StreamlitApp.reason_prompt query category site_name site_url)
  = Py.Returned (StreamlitApp.ContentStr s) ->
  Py.strip Py.isspace s <> [] ->
  exists body l r,
    StreamlitApp.reason_with_llm llm query category site_name site_url
    = body ++ [46] /\
    s = l ++ body ++ r /\
    Forall (fun c => Props.is_stop c = false) body /\
    from_option Py.isspace false (head body) = false /\
    from_option Py.isspace false (last body) = false.
Proof.
  intros Hllm Htext. unfold StreamlitApp.reason_with_llm. rewrite Hllm.
  destruct (Py.strip Py.isspace s) as [|c text] eqn:Hs; [contradiction|].
  destruct (strip_infix Py.isspace s) as (l1 & r1 & Hs1). rewrite Hs in Hs1.
  destruct (first_piece_prefix (c :: text)) as [rest Hrest].
  pose proof (first_piece_no_stop (c :: text)) as Hstop.
  remember (StreamlitApp.first_piece (c :: text)) as piece eqn:Hpiece.
  destruct (strip_infix Py.isspace piece) as (l2 & r2 & Hs2).
  exists (Py.strip Py.isspace piece), (l1 ++ l2), (r2 ++ rest ++ r1).
  split; [reflexivity|]. split; [|split; [|apply strip_ends]].
  - rewrite Hs1, Hrest. rewrite Hs2 at 1. rewrite <- !app_assoc. reflexivity.
  - apply strip_Forall, Hstop.
Qed.

Lemma ascii_lower_not_digit c :
  Py.is_ascii c = true -> Py.is_digit_09 c = false ->
  Py.isdigit (Py.ascii_lower c) = false.
Proof.
  unfold Py.isdigit, Py.is_ascii, Py.ascii_lower, Py.is_upper_az,
    Py.is_digit_09, Py.between.
  intros Ha%N.ltb_lt Hd.
  destruct (N.leb_spec 65 c); destruct (N.leb_spec c 90); simpl.
  - assert ((c + 32 <? 128) = true) as -> by (apply N.ltb_lt; lia).
    destruct (N.leb_spec 48 (c + 32)); destruct (N.leb_spec (c + 32) 57);
      simpl; try reflexivity; lia.
  - rewrite (proj2 (N.ltb_lt c 128) Ha). exact Hd.
  - rewrite (proj2 (N.ltb_lt c 128) Ha). exact Hd.
  - rewrite (proj2 (N.ltb_lt c 128) Ha). exact Hd.
Qed.

(** X9. An ASCII query without a digit never gets the budget hint: its
    deterministic reason is the bare sentence for the site and category. *)
Theorem no_digit_no_budget_hint (site_name category query : list N) :
  forallb Py.is_ascii query = true ->
  Forall (fun c => Py.is_digit_09 c = false) query ->
  StreamlitApp.budget_present query = false /\
  StreamlitApp.deterministic_reason site_name category query
  = StreamlitApp.base_sentence site_name category.
Proof.
  intros Hascii Hnd.
  assert (StreamlitApp.budget_present query = false) as Hb.
  { destruct (StreamlitApp.budget_present query) eqn:Hb; [|reflexivity].
    apply budget_search_true in Hb
      as (pre & m & sp & d & post & Heq & _ & _ & Hd).
    assert (Forall (fun c => Py.isdigit c = false)
                   (StreamlitApp.normalize_text query)) as Hall.
    { apply normalize_text_Forall; [reflexivity|].
      unfold Py.lower. rewrite Hascii. apply Forall_fmap.
      apply Forall_forall. intros c Hc. simpl.
      apply ascii_lower_not_digit.
      - apply (proj1 (forallb_forall _ _) Hascii), list_elem_of_In, Hc.
      - apply (proj1 (Forall_forall _ _) Hnd c Hc). }
    rewrite Heq in Hall.
    apply Forall_app in Hall as [_ Hall]. apply Forall_app in Hall as [_ Hall].
    apply Forall_app in Hall as [_ Hall]. apply Forall_cons in Hall as [Hd' _].
    congruence. }
  split; [exact Hb|].
  unfold StreamlitApp.deterministic_reason. rewrite Hb. reflexivity.
Qed.

End ReasonsMore.

Lemma fallback_covers_every_site_witness :
  is_Some (App.build_fallback_reasons [Demo.amazon; Demo.flipkart]
             (Py.lit "electronics") (Py.lit "laptop")
             !! App.name Demo.flipkart).
Proof.
  apply (fallback_covers_every_site [Demo.amazon; Demo.flipkart]).
  right. left.
Defined.

Lemma model_reason_is_one_sentence_witness :
  exists body l r,
    StreamlitApp.reason_with_llm (rt := Demo.runtime)
      (fun _ => Py.Returned
                  (StreamlitApp.ContentStr (Py.lit "  Great prices! Really. ")))
      (Py.lit "laptop") (Py.lit "electronics") (Py.lit "Croma")
      (Py.lit "https://www.croma.com")
    = body ++ [46] /\
    Py.lit "  Great prices! Really. " = l ++ body ++ r /\
    Forall (fun c => Props.is_stop c = false) body /\
    from_option (Py.isspace (rt := Demo.runtime)) false (head body) = false /\
    from_option (Py.isspace (rt := Demo.runtime)) false (last body) = false.
Proof.
  apply (model_reason_is_one_sentence (rt := Demo.runtime)).
  - reflexivity.
  - vm_compute. discriminate.
Defined.

Lemma no_digit_no_budget_hint_witness :
  StreamlitApp.budget_present (rt := Demo.runtime)
    (Py.lit "a laptop under my budget") = false /\
  StreamlitApp.deterministic_reason (rt := Demo.runtime)
    (Py.lit "Croma") (Py.lit "electronics") (Py.lit "a laptop under my budget")
  = StreamlitApp.base_sentence (Py.lit "Croma") (Py.lit "electronics").
Proof.
  apply (no_digit_no_budget_hint (rt := Demo.runtime)).
  - vm_compute. reflexivity.
  - repeat constructor.
Defined.

(** ** More on deep links *)

Section LinksMore.
Context {rt : Py.Runtime}.

Lemma startswith_true p s :
  Py.startswith p s = true <-> exists rest, s = p ++ rest.
Proof.
  revert s. induction p as [|a p IH]; intros s; simpl.
  - split; [intros _; exists s; reflexivity|reflexivity].
  - destruct s as [|b s]; [split; [discriminate|intros [? [=]]]|].
    rewrite andb_true_iff, IH. split.
    + intros [->%N.eqb_eq [rest ->]]. exists rest. reflexivity.
    + intros [rest [= -> ->]]. split; [apply N.eqb_refl|eauto].
Qed.


Lemma startswith_app_l p a b :
  Py.startswith p a = true -> Py.startswith p (a ++ b) = true.
Proof.
  intros [rest ->]%startswith_true. apply startswith_true.
  exists (rest ++ b). apply eq_sym, app_assoc.
Qed.

Ltac to_retailer root :=
  let H := fresh in
  intros ? H; apply (inj Some) in H; subst; right; exists root;
  split; [unfold Props.retailer_roots; repeat constructor
         |apply startswith_app_l; vm_compute; reflexivity].

(** X10. A deep link leads to the base URL of the site or to a page of
    one of the nine retailer sites, and to nothing else; the builder
    raises exactly when [urlparse] rejects the base URL or [quote] cannot
    encode the normalised query. *)
Theorem deep_link_targets (site_name base_url query category : list N) :
  (StreamlitApp.build_deep_link site_name base_url query category = None <->
   Py.urlparse_netloc base_url = None \/
   Py.quote (StreamlitApp.normalize_text query) = None) /\
  (forall link,
     StreamlitApp.build_deep_link site_name base_url query category
     = Some link ->
     link = base_url \/
     exists root, root ∈ Props.retailer_roots /\
                  Py.startswith root link = true).
Proof.
  unfold StreamlitApp.build_deep_link.
  destruct (Py.urlparse_netloc base_url) as [netloc|];
    cbn [mbind option_bind]; [|split; [tauto|discriminate]].
  destruct (Py.quote (StreamlitApp.normalize_text query)) as [q_enc|];
    cbn [mbind option_bind]; [|split; [tauto|discriminate]].
  split; [split; [discriminate|intros [H|H]; discriminate H]|].
  destruct (Py.contains (Py.lit "amazon.in") _).
  { destruct (_ || _); to_retailer (Py.lit "https://www.amazon.in/"). }
  destruct (Py.contains (Py.lit "flipkart.com") _);
    [to_retailer (Py.lit "https://www.flipkart.com/")|].
  destruct (Py.contains (Py.lit "croma.com") _);
    [to_retailer (Py.lit "https://www.croma.com/")|].
  destruct (Py.contains (Py.lit "reliancedigital.in") _);
    [to_retailer (Py.lit "https://www.reliancedigital.in/")|].
  destruct (Py.contains (Py.lit "myntra.com") _);
    [to_retailer (Py.lit "https://www.myntra.com/")|].
  destruct (Py.contains (Py.lit "ajio.com") _);
    [to_retailer (Py.lit "https://www.ajio.com/")|].
  destruct (Py.contains (Py.lit "pepperfry.com") _);
    [to_retailer (Py.lit "https://www.pepperfry.com/")|].
  destruct (Py.contains (Py.lit "ikea.com") _);
    [to_retailer (Py.lit "https://www.ikea.com/")|].
  destruct (Py.contains (Py.lit "urbanladder.com") _);
    [to_retailer (Py.lit "https://www.urbanladder.com/")|].
  intros link H. apply (inj Some) in H. left. congruence.
Qed.


End LinksMore.

Lemma deep_link_targets_witness :
  Py.lit "https://www.flipkart.com/search?q=usb%20cable"
  = Py.lit "https://www.flipkart.com" \/
  exists root, root ∈ Props.retailer_roots /\
    Py.startswith root
      (Py.lit "https://www.flipkart.com/search?q=usb%20cable") = true.
Proof.
  pose proof (deep_link_targets (rt := Demo.runtime)
                (Py.lit "Flipkart") (Py.lit "https://www.flipkart.com")
                (Py.lit " USB  cable") (Py.lit "electronics")) as [_ H].
  apply H. vm_compute. reflexivity.
Defined.


(** ** The keyword index *)

Section KeywordIndex.
Context {rt : Py.Runtime}.

(** The key under which a keyword is filed. *)
Local Abbreviation norm kw := (Py.strip Py.isspace (Py.lower kw)).

Lemma index_row_lookup (c : list N) (kws : list (list N)) k :
  forall (acc : gmap (list N) (list N)),
    foldl (fun index kw => <[norm kw := c]> index) acc kws !! k
    = if bool_decide (Exists (fun kw => norm kw = k) kws)
      then Some c else acc !! k.
Proof.
  induction kws as [|kw kws IH]; intros acc; cbn [foldl].
  - rewrite bool_decide_eq_false_2; [reflexivity|]. intros H. inversion H.
  - rewrite IH. clear IH.
    destruct (bool_decide_reflect (Exists (fun kw => norm kw = k) kws))
      as [Hex|Hex].
    + rewrite bool_decide_eq_true_2; [reflexivity|]. right. exact Hex.
    + destruct (decide (norm kw = k)) as [Hk|Hk].
      * rewrite bool_decide_eq_true_2 by (left; exact Hk).
        rewrite <- Hk. apply lookup_insert_eq.
      * rewrite bool_decide_eq_false_2.
        -- apply lookup_insert_ne, Hk.
        -- intros H. inversion H; subst; contradiction.
Qed.

(** X12. The keyword index files every keyword of the table under its
    lower-cased, stripped form; each entry names a category that lists
    such a keyword, and when several categories list it, the last one in
    the table is the one filed. *)
Theorem keyword_index_entries
    (table : list (list N * list (list N))) :
  (forall k c,
     AppMain.build_keyword_index table !! k = Some c ->
     exists kws kw, (c, kws) ∈ table /\ kw ∈ kws /\ k = norm kw) /\
  (forall c kws kw,
     (c, kws) ∈ table -> kw ∈ kws ->
     is_Some (AppMain.build_keyword_index table !! norm kw)) /\
  (forall pre c kws post kw,
     table = pre ++ (c, kws) :: post -> kw ∈ kws ->
     Forall (fun item => Forall (fun kw' => norm kw' <> norm kw) item.2) post ->
     AppMain.build_keyword_index table !! norm kw = Some c).
Proof.
  unfold AppMain.build_keyword_index.
  set (row := fun (index : gmap (list N) (list N))
                  (item : list N * list (list N)) =>
                foldl (fun index kw => <[norm kw := item.1]> index)
                      index item.2).
  assert (forall t k c (acc : gmap (list N) (list N)),
            foldl row acc t !! k = Some c ->
            acc !! k = Some c \/
            exists kws kw, (c, kws) ∈ t /\ kw ∈ kws /\ k = norm kw) as Hsound.
  { induction t as [|[c' kws'] t IH]; intros k c acc; cbn [foldl];
      [auto|].
    intros H. apply IH in H as [H|(kws & kw & Hin & Hkw & Hk)].
    - unfold row in H. cbn [fst snd] in H. rewrite index_row_lookup in H.
      destruct (bool_decide_reflect
                  (Exists (fun kw => norm kw = k) kws')) as [Hex|Hex];
        [|left; exact H].
      injection H as <-. right.
      apply Exists_exists in Hex as (kw & Hkw & Hk).
      exists kws', kw. split; [left|]. split; [exact Hkw|congruence].
    - right. exists kws, kw. split; [right; exact Hin|auto]. }
  assert (forall t k (acc : gmap (list N) (list N)),
            is_Some (acc !! k) -> is_Some (foldl row acc t !! k)) as Hkeep.
  { induction t as [|[c' kws'] t IH]; intros k acc Hacc; cbn [foldl];
      [exact Hacc|].
    apply IH. unfold row. cbn [fst snd]. rewrite index_row_lookup.
    destruct (bool_decide _); [eauto|exact Hacc]. }
  assert (forall t k (acc : gmap (list N) (list N)),
            Forall (fun item => Forall (fun kw' => norm kw' <> k) item.2) t ->
            foldl row acc t !! k = acc !! k) as Hsame.
  { induction t as [|[c' kws'] t IH]; intros k acc Hall; cbn [foldl];
      [reflexivity|].
    apply Forall_cons in Hall as [Hrow Hall]. rewrite IH by exact Hall.
    unfold row. cbn [fst snd] in *. rewrite index_row_lookup.
    rewrite bool_decide_eq_false_2; [reflexivity|].
    intros (kw' & Hkw' & Hk)%Exists_exists.
    exact (proj1 (Forall_forall _ _) Hrow kw' Hkw' Hk). }
  assert (forall c kws kw (acc : gmap (list N) (list N)),
            kw ∈ kws -> row acc (c, kws) !! norm kw = Some c) as Hrow.
  { intros c kws kw acc Hkw. unfold row. cbn [fst snd].
    rewrite index_row_lookup, bool_decide_eq_true_2; [reflexivity|].
    apply Exists_exists. exists kw. auto. }
  split; [|split].
  - intros k c H. apply Hsound in H as [H|H]; [|exact H].
    rewrite lookup_empty in H. discriminate.
  - intros c kws kw Hin Hkw.
    apply list_elem_of_split in Hin as (pre & post & ->).
    rewrite foldl_app. cbn [foldl]. apply Hkeep.
    rewrite (Hrow c kws kw _ Hkw). eauto.
  - intros pre c kws post kw -> Hkw Hpost.
    rewrite foldl_app. cbn [foldl].
    rewrite Hsame by exact Hpost. apply Hrow, Hkw.
Qed.

End KeywordIndex.

Lemma keyword_index_entries_witness :
  is_Some (AppMain.build_keyword_index (rt := Demo.runtime)
             DemoTables.categories_map !! Py.lit "laptop").
Proof.
  pose proof (keyword_index_entries (rt := Demo.runtime)
                DemoTables.categories_map) as (_ & H & _).
  apply (H (Py.lit "electronics")
           [Py.lit "Laptop"; Py.lit "mobile"; Py.lit "charger"]
           (Py.lit "Laptop")).
  - right. left.
  - left.
Defined.

(** ** Rendering and the pages *)

Section Pages.
Context {rt : Py.Runtime}.

(** The line of a site whose reason is the text [reason]. *)
Local Abbreviation line_with w reason :=
  (Py.lit "- [" ++ App.name w ++ Py.lit "](" ++
   default (Py.lit "#") (App.url w) ++ Py.lit ") " ++ AppMain.dash ++
   Py.lit " " ++ reason).

Lemma strip_fallback_sentence category w :
  Py.strip Py.isspace (App.fallback_sentence category w)
  = App.fallback_sentence category w.
Proof.
  apply strip_id.
  - reflexivity.
  - unfold App.fallback_sentence.
    rewrite (last_app_end _ _ 46); [reflexivity|].
    repeat (apply last_app_end). reflexivity.
Qed.

Lemma render_fallback_lines websites category user_query :
  NoDup (App.name <$> websites) ->
  AppMain.render_links_with_reasons websites
    (App.build_fallback_reasons websites category user_query)
  = (fun w => line_with w (App.fallback_sentence category w)) <$> websites.
Proof.
  intros Hnd. unfold AppMain.render_links_with_reasons.
  apply Forall_fmap_ext_1, Forall_forall. intros w Hw.
  unfold AppMain.link_line, App.build_fallback_reasons.
  rewrite (fallback_fold_lookup category websites ∅ w Hnd Hw).
  cbn [default from_option id]. rewrite strip_fallback_sentence. reflexivity.
Qed.

(** X13. Rendered after the fallback, every site of a list with distinct
    names shows its own fallback sentence, unchanged, after its link; a
    site without a URL links to "#". *)
Theorem fallback_is_rendered_for_every_site websites category user_query :
  NoDup (App.name <$> websites) ->
  AppMain.render_links_with_reasons websites
    (App.build_fallback_reasons websites category user_query)
  = (fun w => line_with w (App.fallback_sentence category w)) <$> websites.
Proof. apply render_fallback_lines. Qed.

(** X14. The reply of the model is never used: with the chain the
    source builds, the batch generator answers the fallback map for every
    model, so a page with a model set up shows, without the fallback
    notice, the same fallback sentences as a page without one. *)
Theorem model_reply_is_never_used
    (llm : App.prompt_inputs -> Py.outcome (list N))
    (user_query category : list N) :
  (forall websites,
     App.generate_reasons_for_websites (App.chain_of llm) user_query
                                       category websites
     = App.build_fallback_reasons websites category user_query) /\
  (forall categories_map websites_map api_key_env ChatOpenAI sites,
     Py.strip Py.isspace user_query <> [] ->
     App.detect_category user_query categories_map = Some category ->
     category <> [] ->
     websites_map !! category = Some sites ->
     sites <> [] ->
     NoDup (App.name <$> sites) ->
     AppMain.ensure_llm api_key_env ChatOpenAI = Some llm ->
     AppMain.on_submit user_query (AppMain.Loaded categories_map)
       (AppMain.Loaded websites_map) api_key_env ChatOpenAI
     = AppMain.Suggestions category false
         ((fun w => line_with w (App.fallback_sentence category w))
            <$> sites)).
Proof.
  split; [intros websites; apply generate_with_chain_of|].
  intros categories_map websites_map api_key_env ChatOpenAI sites
    Hq Hdet Hcat Hsites Hne Hnd Hllm.
  unfold AppMain.on_submit.
  destruct (Py.strip Py.isspace user_query); [contradiction|].
  rewrite Hdet. destruct category as [|c1 cat]; [contradiction|].
  rewrite Hsites. cbn [default from_option id].
  destruct sites as [|w sites]; [contradiction|].
  rewrite Hllm, generate_with_chain_of.
  rewrite render_fallback_lines by exact Hnd. reflexivity.
Qed.

(** X15. The page lists suggestions only when the query is not blank,
    both files were read, a category with a non-empty name was detected
    and sites are configured for it; it then shows one line per site, and
    the notice about fallback reasons exactly when no model is set up. *)
Theorem suggestions_need_everything
    user_query categories_file websites_file api_key_env ChatOpenAI
    category notice lines :
  AppMain.on_submit user_query categories_file websites_file api_key_env
                    ChatOpenAI
  = AppMain.Suggestions category notice lines ->
  Py.strip Py.isspace user_query <> [] /\
  exists categories_map websites_map sites,
    categories_file = AppMain.Loaded categories_map /\
    websites_file = AppMain.Loaded websites_map /\
    App.detect_category user_query categories_map = Some category /\
    category <> [] /\
    websites_map !! category = Some sites /\
    sites <> [] /\
    length lines = length sites /\
    (notice = true <-> AppMain.ensure_llm api_key_env ChatOpenAI = None).
Proof.
  unfold AppMain.on_submit.
  destruct (Py.strip Py.isspace user_query) as [|c0 q0]; [discriminate|].
  destruct categories_file as [categories_map| | |]; try discriminate;
    destruct websites_file as [websites_map| | |]; try discriminate.
  destruct (App.detect_category user_query categories_map)
    as [[|c1 cat]|] eqn:Hdet; try discriminate.
  destruct (websites_map !! (c1 :: cat)) as [[|w sites]|] eqn:Hsites;
    try discriminate. cbn [default from_option].
  destruct (AppMain.ensure_llm api_key_env ChatOpenAI) as [llm|] eqn:Hllm;
    intros [= <- <- <-]; (split; [discriminate|]);
    exists categories_map, websites_map, (w :: sites);
    repeat split; try assumption; try discriminate;
    try (cbn [length]; unfold AppMain.render_links_with_reasons;
         rewrite length_fmap; reflexivity).
Qed.

Lemma ensure_llm_blank_key {L : Type} api_key_env
    (ChatOpenAI : option (Py.outcome L)) :
  Forall (fun c => Py.isspace c = true) (default [] api_key_env) ->
  AppMain.ensure_llm api_key_env ChatOpenAI = None.
Proof.
  intros H. unfold AppMain.ensure_llm.
  rewrite (strip_all_space _ H). reflexivity.
Qed.

(** X16. Without an API key (unset, empty or blank), a query whose
    category has sites with distinct names gets the fallback notice and,
    for every site in order, its link followed by its fallback sentence;
    the model is never asked. *)
Theorem no_key_shows_fallback_for_every_site
    user_query categories_map websites_map api_key_env ChatOpenAI
    category sites :
  Forall (fun c => Py.isspace c = true) (default [] api_key_env) ->
  Py.strip Py.isspace user_query <> [] ->
  App.detect_category user_query categories_map = Some category ->
  category <> [] ->
  websites_map !! category = Some sites ->
  sites <> [] ->
  NoDup (App.name <$> sites) ->
  AppMain.on_submit user_query (AppMain.Loaded categories_map)
    (AppMain.Loaded websites_map) api_key_env ChatOpenAI
  = AppMain.Suggestions category true
      ((fun w => line_with w (App.fallback_sentence category w)) <$> sites).
Proof.
  intros Hkey Hq Hdet Hcat Hsites Hne Hnd. unfold AppMain.on_submit.
  destruct (Py.strip Py.isspace user_query); [contradiction|].
  rewrite Hdet. destruct category as [|c1 cat]; [contradiction|].
  rewrite Hsites. cbn [default from_option].
  destruct sites as [|w sites]; [contradiction|].
  rewrite (ensure_llm_blank_key _ _ Hkey).
  rewrite render_fallback_lines by exact Hnd. reflexivity.
Qed.

End Pages.

Section StreamlitPages.
Context {rt : Py.Runtime}.

Local Abbreviation base_of site :=
  (default (Py.lit "#") (StreamlitMain.url site)).
Local Abbreviation name_of site :=
  (default (Py.lit "Website") (StreamlitMain.name site)).

Lemma build_deep_link_None site_name base_url query category :
  StreamlitApp.build_deep_link site_name base_url query category = None <->
  Py.urlparse_netloc base_url = None \/
  Py.quote (StreamlitApp.normalize_text query) = None.
Proof.
  unfold StreamlitApp.build_deep_link.
  destruct (Py.urlparse_netloc base_url); cbn [mbind option_bind];
    [|tauto].
  destruct (Py.quote (StreamlitApp.normalize_text query));
    cbn [mbind option_bind]; [|tauto].
  split; [discriminate|intros [H|H]; discriminate H].
Qed.

Lemma render_sites_all_parsed llm query category q_enc sites :
  Py.quote (StreamlitApp.normalize_text query) = Some q_enc ->
  Forall (fun site => Py.urlparse_netloc (base_of site) <> None) sites ->
  (StreamlitMain.render_sites llm query category sites).2 = false /\
  length (StreamlitMain.render_sites llm query category sites).1
  = length sites.
Proof.
  intros Hquote. induction 1 as [|site sites Hsite _ IH];
    [split; reflexivity|].
  cbn [StreamlitMain.render_sites].
  destruct (StreamlitApp.build_deep_link _ _ _ _) as [link|] eqn:Hlink.
  - cbn [fst snd length]. destruct IH as [-> ->]. split; reflexivity.
  - apply build_deep_link_None in Hlink as [Hlink|Hlink];
      [contradiction|congruence].
Qed.

(** X17. The site loop does not guard [build_deep_link].  When [quote]
    can encode the normalised query, a site URL that [urlparse] rejects
    ends the run: the sites before it are rendered, one item each, and
    nothing after them; and when every URL is accepted, every site is
    rendered.  When [quote] cannot encode the query, the run ends at the
    first site with nothing rendered. *)
Theorem render_sites_stops_at_rejected_url llm query category :
  (forall q_enc pre bad post,
     Py.quote (StreamlitApp.normalize_text query) = Some q_enc ->
     Forall (fun site => Py.urlparse_netloc (base_of site) <> None) pre ->
     Py.urlparse_netloc (base_of bad) = None ->
     StreamlitMain.render_sites llm query category (pre ++ bad :: post)
     = ((StreamlitMain.render_sites llm query category pre).1, true) /\
     length (StreamlitMain.render_sites llm query category pre).1
     = length pre) /\
  (forall q_enc sites,
     Py.quote (StreamlitApp.normalize_text query) = Some q_enc ->
     Forall (fun site => Py.urlparse_netloc (base_of site) <> None) sites ->
     (StreamlitMain.render_sites llm query category sites).2 = false /\
     length (StreamlitMain.render_sites llm query category sites).1
     = length sites) /\
  (forall site rest,
     Py.quote (StreamlitApp.normalize_text query) = None ->
     StreamlitMain.render_sites llm query category (site :: rest)
     = ([], true)).
Proof.
  split; [|split].
  - intros q_enc pre bad post Hquote Hpre Hbad.
    split; [|apply (render_sites_all_parsed _ _ _ q_enc); assumption].
    induction Hpre as [|site pre Hsite _ IH]; simpl app;
      cbn [StreamlitMain.render_sites].
    + rewrite (proj2 (build_deep_link_None _ _ _ _) (or_introl Hbad)).
      reflexivity.
    + destruct (StreamlitApp.build_deep_link _ _ _ _) as [link|] eqn:Hlink.
      * rewrite IH. reflexivity.
      * apply build_deep_link_None in Hlink as [Hlink|Hlink];
          [contradiction|congruence].
  - intros q_enc sites. apply render_sites_all_parsed.
  - intros site rest Hquote. cbn [StreamlitMain.render_sites].
    rewrite (proj2 (build_deep_link_None _ _ _ _) (or_intror Hquote)).
    reflexivity.
Qed.

Lemma unknown_host_link site_name base_url query category netloc q_enc :
  Py.urlparse_netloc base_url = Some netloc ->
  Py.quote (StreamlitApp.normalize_text query) = Some q_enc ->
  Forall (fun known => Py.contains known (Py.lower netloc) = false)
         StreamlitApp.known_hosts ->
  StreamlitApp.build_deep_link site_name base_url query category
  = Some base_url.
Proof.
  intros Hnetloc Hquote Hhosts. unfold StreamlitApp.build_deep_link.
  rewrite Hnetloc. cbn [mbind option_bind]. rewrite Hquote.
  cbn [mbind option_bind].
  unfold StreamlitApp.known_hosts in Hhosts.
  repeat (apply Forall_cons in Hhosts as [-> Hhosts]).
  reflexivity.
Qed.

(** X18. Without a model, when [quote] can encode the normalised query,
    sites whose hosts are not recognised are all rendered, each with a
    link to its own base URL and the deterministic reason for its name; a
    site without a name is called "Website". *)
Theorem unknown_hosts_render_as_they_are query category q_enc sites :
  Py.quote (StreamlitApp.normalize_text query) = Some q_enc ->
  Forall (fun site =>
            exists netloc,
              Py.urlparse_netloc (base_of site) = Some netloc /\
              Forall (fun known =>
                        Py.contains known (Py.lower netloc) = false)
                     StreamlitApp.known_hosts) sites ->
  StreamlitMain.render_sites None query category sites
  = ((fun site =>
        {| StreamlitMain.markdown :=
             Py.lit "- [" ++ name_of site ++ Py.lit "](" ++ base_of site ++
             Py.lit ")";
           StreamlitMain.caption :=
             StreamlitApp.deterministic_reason (name_of site) category query |})
       <$> sites, false).
Proof.
  intros Hquote.
  induction 1 as [|site sites (netloc & Hnetloc & Hhosts) _ IH];
    [reflexivity|].
  cbn [StreamlitMain.render_sites].
  rewrite (unknown_host_link _ _ query category netloc q_enc
             Hnetloc Hquote Hhosts).
  rewrite IH. reflexivity.
Qed.

End StreamlitPages.

Lemma fallback_is_rendered_for_every_site_witness :
  AppMain.render_links_with_reasons (rt := Demo.runtime)
    [Demo.amazon; Demo.flipkart]
    (App.build_fallback_reasons [Demo.amazon; Demo.flipkart]
       (Py.lit "electronics") (Py.lit "laptop"))
  = [Py.lit "- [Amazon India](https://www.amazon.in) " ++ AppMain.dash ++
     Py.lit " Great for electronics; known for fast delivery, wide selection.";
     Py.lit "- [Flipkart](https://www.flipkart.com) " ++ AppMain.dash ++
     Py.lit " Great for electronics; known for good selection and reliability."].
Proof.
  rewrite (fallback_is_rendered_for_every_site (rt := Demo.runtime)).
  - vm_compute. reflexivity.
  - apply (bool_decide_unpack _). vm_compute. exact I.
Defined.

Lemma model_reply_is_never_used_witness :
  AppMain.on_submit (rt := Demo.runtime) DemoTables.query
    (AppMain.Loaded DemoTables.categories_map)
    (AppMain.Loaded DemoSites.websites_map) (Some (Py.lit "sk-test"))
    (Some (Py.Returned (fun _ => Py.Returned Demo.partial_doc)))
  = AppMain.Suggestions (Py.lit "electronics") false
      [Py.lit "- [Amazon India](https://www.amazon.in) " ++ AppMain.dash ++
       Py.lit " Great for electronics; known for fast delivery, wide selection.";
       Py.lit "- [Flipkart](https://www.flipkart.com) " ++ AppMain.dash ++
       Py.lit " Great for electronics; known for good selection and reliability."].
Proof.
  pose proof (model_reply_is_never_used (rt := Demo.runtime)
                (fun _ => Py.Returned Demo.partial_doc)
                DemoTables.query (Py.lit "electronics")) as [_ H].
  rewrite (H DemoTables.categories_map DemoSites.websites_map
             (Some (Py.lit "sk-test"))
             (Some (Py.Returned (fun _ => Py.Returned Demo.partial_doc)))
             [Demo.amazon; Demo.flipkart]).
  - vm_compute. reflexivity.
  - vm_compute. discriminate.
  - vm_compute. reflexivity.
  - discriminate.
  - vm_compute. reflexivity.
  - discriminate.
  - apply (bool_decide_unpack _). vm_compute. exact I.
  - reflexivity.
Defined.

Lemma suggestions_need_everything_witness :
  exists categories_map websites_map sites,
    AppMain.Loaded DemoTables.categories_map = AppMain.Loaded categories_map /\
    AppMain.Loaded DemoSites.websites_map = AppMain.Loaded websites_map /\
    App.detect_category (rt := Demo.runtime) DemoTables.query categories_map
    = Some (Py.lit "electronics") /\
    Py.lit "electronics" <> [] /\
    websites_map !! Py.lit "electronics" = Some sites /\
    sites <> [] /\
    length
      (AppMain.render_links_with_reasons (rt := Demo.runtime)
         [Demo.amazon; Demo.flipkart]
         (App.build_fallback_reasons [Demo.amazon; Demo.flipkart]
            (Py.lit "electronics") DemoTables.query))
    = length sites /\
    (true = true <->
     AppMain.ensure_llm (rt := Demo.runtime)
       (L := App.prompt_inputs -> Py.outcome (list N)) None None = None).
Proof.
  apply (suggestions_need_everything (rt := Demo.runtime)
           DemoTables.query (AppMain.Loaded DemoTables.categories_map)
           (AppMain.Loaded DemoSites.websites_map) None None).
  vm_compute. reflexivity.
Defined.

Lemma no_key_shows_fallback_for_every_site_witness :
  AppMain.on_submit (rt := Demo.runtime) DemoTables.query
    (AppMain.Loaded DemoTables.categories_map)
    (AppMain.Loaded DemoSites.websites_map) (Some (Py.lit "  ")) None
  = AppMain.Suggestions (Py.lit "electronics") true
      [Py.lit "- [Amazon India](https://www.amazon.in) " ++ AppMain.dash ++
       Py.lit " Great for electronics; known for fast delivery, wide selection.";
       Py.lit "- [Flipkart](https://www.flipkart.com) " ++ AppMain.dash ++
       Py.lit " Great for electronics; known for good selection and reliability."].
Proof.
  rewrite (no_key_shows_fallback_for_every_site (rt := Demo.runtime)
             DemoTables.query DemoTables.categories_map
             DemoSites.websites_map (Some (Py.lit "  ")) None
             (Py.lit "electronics") [Demo.amazon; Demo.flipkart]).
  - vm_compute. reflexivity.
  - repeat constructor.
  - vm_compute. discriminate.
  - vm_compute. reflexivity.
  - vm_compute. discriminate.
  - vm_compute. reflexivity.
  - discriminate.
  - apply (bool_decide_unpack _). vm_compute. exact I.
Defined.

Lemma render_sites_stops_at_rejected_url_witness :
  StreamlitMain.render_sites (rt := StrictDemo.runtime) None
    (Py.lit "blue shirt") (Py.lit "fashion")
    ([DemoSites.corner_shop] ++ StrictDemo.broken :: [DemoSites.nameless])
  = ((StreamlitMain.render_sites (rt := StrictDemo.runtime) None
        (Py.lit "blue shirt") (Py.lit "fashion") [DemoSites.corner_shop]).1,
     true).
Proof.
  pose proof (render_sites_stops_at_rejected_url (rt := StrictDemo.runtime)
                None (Py.lit "blue shirt") (Py.lit "fashion")) as [H _].
  apply (H (Py.lit "blue%20shirt")
           [DemoSites.corner_shop] StrictDemo.broken [DemoSites.nameless]).
  - vm_compute. reflexivity.
  - repeat constructor. vm_compute. discriminate.
  - vm_compute. reflexivity.
Defined.

Lemma unknown_hosts_render_as_they_are_witness :
  (StreamlitMain.render_sites (rt := Demo.runtime) None
     (Py.lit "blue shirt") (Py.lit "fashion")
     [DemoSites.corner_shop; DemoSites.nameless]).2 = false /\
  StreamlitMain.markdown <$>
    (StreamlitMain.render_sites (rt := Demo.runtime) None
       (Py.lit "blue shirt") (Py.lit "fashion")
       [DemoSites.corner_shop; DemoSites.nameless]).1
  = [Py.lit "- [Corner Shop](https://www.example.org/shop)";
     Py.lit "- [Website](https://shop.example.net)"].
Proof.
  rewrite (unknown_hosts_render_as_they_are (rt := Demo.runtime)
             _ _ (Py.lit "blue%20shirt")).
  - split; vm_compute; reflexivity.
  - vm_compute. reflexivity.
  - constructor; [|constructor; [|constructor]].
    + exists (Py.lit "www.example.org").
      split; [vm_compute; reflexivity|repeat constructor].
    + exists (Py.lit "shop.example.net").
      split; [vm_compute; reflexivity|repeat constructor].
Defined.

(** ** Normalising twice *)

Section NormaliseTwice.
Context {rt : Py.Runtime}.

Lemma never_adjacent_apart p (s : list N) :
  Props.never_adjacent p s -> Props.apart p s.
Proof.
  induction s as [|a [|b s] IH]; intros H; simpl; try exact I.
  split.
  - apply (H [] a b s). reflexivity.
  - apply IH. intros l1 x y l2 Heq. apply (H (a :: l1) x y l2).
    simpl. rewrite Heq. reflexivity.
Qed.

Lemma ascii_lower_fixed c :
  Py.is_ascii c = true ->
  Py.is_ascii (Py.ascii_lower c) = true /\
  Py.ascii_lower (Py.ascii_lower c) = Py.ascii_lower c.
Proof.
  unfold Py.is_ascii, Py.ascii_lower, Py.is_upper_az, Py.between.
  intros Ha%N.ltb_lt.
  destruct (N.leb_spec 65 c); destruct (N.leb_spec c 90); simpl;
    (split; [apply N.ltb_lt; lia|]);
    destruct (N.leb_spec 65 (c + 32)); destruct (N.leb_spec (c + 32) 90);
    destruct (N.leb_spec 65 c); destruct (N.leb_spec c 90);
    simpl; try reflexivity; lia.
Qed.

(** The lower-casing of a text of lower-cased ASCII is the text. *)
Lemma lower_of_lowered (t : list N) :
  Forall (fun c => Py.is_ascii c = true /\ Py.ascii_lower c = c) t ->
  Py.lower t = t.
Proof.
  intros Hall. unfold Py.lower.
  assert (forallb Py.is_ascii t = true) as ->.
  { apply forallb_forall. intros c Hc%list_elem_of_In.
    apply (proj1 (Forall_forall _ _) Hall c Hc). }
  induction Hall as [|c t [_ Hc] _ IH]; [reflexivity|].
  rewrite fmap_cons, IH, Hc. reflexivity.
Qed.

Lemma sub_runs_spaces_id (t : list N) : forall in_run,
  Forall (fun c => Py.isspace c = true -> c = 32) t ->
  Props.apart Py.isspace t ->
  (in_run = true -> from_option Py.isspace false (head t) = false) ->
  Py.sub_runs Py.isspace (Py.lit " ") in_run t = t.
Proof.
  induction t as [|c t IH]; intros in_run Hall Hap Hrun; [reflexivity|].
  apply Forall_cons in Hall as [Hc Hall]. cbn [Py.sub_runs].
  pose proof (apart_tail _ _ _ Hap) as Hap'.
  destruct (Py.isspace c) eqn:Hsp.
  - destruct in_run; [specialize (Hrun eq_refl); simpl in Hrun; congruence|].
    rewrite (Hc eq_refl) in *. change (Py.lit " ") with [32]. simpl app.
    f_equal. apply IH; [exact Hall|exact Hap'|].
    intros _. destruct t as [|d t]; [reflexivity|].
    simpl in Hap. simpl. destruct (Py.isspace d); [tauto|reflexivity].
  - f_equal. apply IH; [exact Hall|exact Hap'|discriminate].
Qed.

Lemma normalize_text_lowered (s : list N) :
  forallb Py.is_ascii s = true ->
  Forall (fun c => Py.is_ascii c = true /\ Py.ascii_lower c = c)
         (StreamlitApp.normalize_text s).
Proof.
  intros Hascii. apply normalize_text_Forall.
  - split; reflexivity.
  - unfold Py.lower. rewrite Hascii. apply Forall_fmap, Forall_forall.
    intros c Hc. simpl. apply ascii_lower_fixed.
    apply (proj1 (forallb_forall _ _) Hascii), list_elem_of_In, Hc.
Qed.

Lemma normalize_text_twice (s : list N) :
  forallb Py.is_ascii s = true ->
  StreamlitApp.normalize_text (StreamlitApp.normalize_text s)
  = StreamlitApp.normalize_text s.
Proof.
  intros Hascii.
  pose proof (normalize_text_lowered s Hascii) as Hlow.
  assert (from_option Py.isspace false
            (head (StreamlitApp.normalize_text s)) = false /\
          from_option Py.isspace false
            (last (StreamlitApp.normalize_text s)) = false) as [Hhd Hlst]
    by apply strip_ends.
  assert (Forall (fun c => Py.isspace c = true -> c = 32)
                 (StreamlitApp.normalize_text s)) as Hsp.
  { apply strip_Forall, sub_runs_Forall; [repeat constructor|].
    apply Forall_forall. intros c _ Hc Hc'. congruence. }
  assert (Props.apart Py.isspace (StreamlitApp.normalize_text s)) as Hap.
  { apply never_adjacent_apart, strip_never_adjacent, apart_never_adjacent.
    apply (sub_runs_apart Py.isspace 32 _ eq_refl false). }
  remember (StreamlitApp.normalize_text s) as t eqn:Ht.
  unfold StreamlitApp.normalize_text.
  rewrite (lower_of_lowered t Hlow).
  rewrite sub_runs_spaces_id by (assumption || discriminate).
  apply strip_id; assumption.
Qed.

(** X19. On ASCII text, normalising is idempotent; so a query that was
    normalised already gives the same slug, the same category and the same
    budget check as the query itself. *)
Theorem normalize_text_idempotent (query : list N) :
  forallb Py.is_ascii query = true ->
  StreamlitApp.normalize_text (StreamlitApp.normalize_text query)
  = StreamlitApp.normalize_text query /\
  StreamlitApp.to_slug (StreamlitApp.normalize_text query)
  = StreamlitApp.to_slug query /\
  StreamlitApp.budget_present (StreamlitApp.normalize_text query)
  = StreamlitApp.budget_present query /\
  (forall categories,
     StreamlitApp.extract_category (StreamlitApp.normalize_text query)
                                   categories
     = StreamlitApp.extract_category query categories).
Proof.
  intros Hascii. pose proof (normalize_text_twice query Hascii) as H.
  split; [exact H|].
  unfold StreamlitApp.to_slug, StreamlitApp.budget_present,
    StreamlitApp.extract_category.
  rewrite H. auto.
Qed.

End NormaliseTwice.

Lemma normalize_text_idempotent_witness :
  StreamlitApp.to_slug (rt := Demo.runtime)
    (StreamlitApp.normalize_text (rt := Demo.runtime)
       (Py.lit "  Blue   COTTON shirt "))
  = StreamlitApp.to_slug (rt := Demo.runtime) (Py.lit "  Blue   COTTON shirt ").
Proof.
  apply (normalize_text_idempotent (rt := Demo.runtime)
           (Py.lit "  Blue   COTTON shirt ")).
  vm_compute. reflexivity.
Defined.

(** ** The Streamlit page and the two ways to set up a model *)

Section StreamlitPage.
Context {rt : Py.Runtime}.

Lemma render_sites_length llm query category sites :
  (length (StreamlitMain.render_sites llm query category sites).1
   <= length sites)%nat /\
  ((StreamlitMain.render_sites llm query category sites).2 = false ->
   length (StreamlitMain.render_sites llm query category sites).1
   = length sites).
Proof.
  induction sites as [|site sites [IHle IHeq]]; [split; reflexivity|].
  cbn [StreamlitMain.render_sites].
  destruct (StreamlitApp.build_deep_link _ _ _ _) as [link|].
  - cbn [fst snd length]. split; [lia|].
    intros H. rewrite (IHeq H). reflexivity.
  - cbn [fst snd length]. split; [lia|discriminate].
Qed.

(** X20. The Streamlit page lists suggestions only when the query is not
    blank, the datasets were read, a category with a non-empty name was
    found and sites are configured for it; it never shows more items than
    sites, and it shows one per site unless a link could not be built. *)
Theorem streamlit_suggestions_need_everything
    query datasets llm category items crashed :
  StreamlitMain.on_submit query datasets llm
  = StreamlitMain.Suggestions category items crashed ->
  Py.strip Py.isspace query <> [] /\
  exists categories websites sites,
    datasets = Some (categories, websites) /\
    StreamlitApp.extract_category query categories = Some category /\
    category <> [] /\
    websites !! category = Some sites /\
    sites <> [] /\
    (length items <= length sites)%nat /\
    (crashed = false -> length items = length sites).
Proof.
  unfold StreamlitMain.on_submit.
  destruct (Py.strip Py.isspace query) as [|c0 q0]; [discriminate|].
  destruct datasets as [[categories websites]|]; [|discriminate].
  destruct (StreamlitApp.extract_category query categories)
    as [[|c1 cat]|] eqn:Hcat; try discriminate.
  destruct (websites !! (c1 :: cat)) as [[|site sites]|] eqn:Hsites;
    try discriminate. cbn [default from_option id].
  intros H. injection H as Hcategory Hitems Hcrashed.
  assert (items = (StreamlitMain.render_sites llm query (c1 :: cat)
                     (site :: sites)).1) as -> by (symmetry; exact Hitems).
  assert (crashed = (StreamlitMain.render_sites llm query (c1 :: cat)
                       (site :: sites)).2) as -> by (symmetry; exact Hcrashed).
  subst category. split; [discriminate|].
  exists categories, websites, (site :: sites).
  pose proof (render_sites_length llm query (c1 :: cat) (site :: sites))
    as [Hle Heq].
  repeat split; try assumption; discriminate.
Qed.

(** X21. A key made of white space only is treated differently by the
    two applications: [ensure_llm] strips it and sets up no model,
    [make_llm] takes it as a key and sets the model up. *)
Theorem blank_key_disables_only_ensure_llm
    {L : Type} (key : list N) (llm : L) :
  key <> [] ->
  Forall (fun c => Py.isspace c = true) key ->
  AppMain.ensure_llm (Some key) (Some (Py.Returned llm)) = None /\
  StreamlitMain.make_llm true (Some key) (Py.Returned llm) = Some llm.
Proof.
  intros Hne Hblank. split.
  - apply ensure_llm_blank_key. exact Hblank.
  - unfold StreamlitMain.make_llm. cbn [default from_option id negb orb].
    rewrite bool_decide_eq_false_2 by exact Hne. reflexivity.
Qed.

End StreamlitPage.

Lemma streamlit_suggestions_need_everything_witness :
  exists categories websites sites,
    Some (DemoTables.categories,
          ({[ Py.lit "electronics" := [DemoSites.corner_shop] ]}
             : gmap (list N) (list StreamlitMain.site)))
    = Some (categories, websites) /\
    StreamlitApp.extract_category (rt := Demo.runtime) DemoTables.query
      categories = Some (Py.lit "electronics") /\
    Py.lit "electronics" <> [] /\
    websites !! Py.lit "electronics" = Some sites /\
    sites <> [] /\
    (length
       (StreamlitMain.render_sites (rt := Demo.runtime) None DemoTables.query
          (Py.lit "electronics") [DemoSites.corner_shop]).1
     <= length sites)%nat /\
    (false = false ->
     length
       (StreamlitMain.render_sites (rt := Demo.runtime) None DemoTables.query
          (Py.lit "electronics") [DemoSites.corner_shop]).1
     = length sites).
Proof.
  apply (streamlit_suggestions_need_everything (rt := Demo.runtime)
           DemoTables.query
           (Some (DemoTables.categories,
                  {[ Py.lit "electronics" := [DemoSites.corner_shop] ]}))
           None).
  vm_compute. reflexivity.
Defined.

Lemma blank_key_disables_only_ensure_llm_witness :
  AppMain.ensure_llm (rt := Demo.runtime) (Some (Py.lit "  "))
    (Some (Py.Returned tt)) = None /\
  StreamlitMain.make_llm true (Some (Py.lit "  ")) (Py.Returned tt) = Some tt.
Proof.
  apply (blank_key_disables_only_ensure_llm (rt := Demo.runtime)).
  - discriminate.
  - repeat constructor.
Defined.
